(** * A shallow embedding of [profiling_wrapper.py]

    The module defines one class, [ProfilingWrapper]: a proxy that forwards
    attribute access to a wrapped object, replaces callable attributes by a
    timing closure, and keeps the measured durations in a class-level
    [defaultdict(list)].

    Python objects are mutable and shared, so the embedding is a heap model:
    instances, proxies, lists and numpy arrays are cells of one store, the
    class-level dictionary binds keys to list cells, and every operation is a
    state transformer that may raise.  Floating-point seconds are idealised
    as real numbers. *)

From Stdlib Require Import Reals Lra.
From stdpp Require Import base gmap strings list sorting.

Local Open Scope string_scope.

(** ** Values, exceptions, cells *)

Definition loc := positive.

Inductive Value :=
| VNone
| VInt (z : Z)
| VStr (s : string)
| VRef (l : loc)
    (* reference to a heap cell *)
| VBound (self : loc) (name : string)
    (* method [name] of the class of instance [self], bound to [self] *)
| VTimed (self : loc) (name : string) (attr : Value)
    (* the closure [timed_method] built by [__getattr__]: it captures the
       proxy [self], the attribute [name] and the resolved [attr] *)
| VSlot (owner : loc) (name : string).
    (* an attribute that the runtime or the class body of ProfilingWrapper
       supplies for [owner]; its content is not looked into *)

Inductive Exn :=
| AttributeError (type_name attr : string)
    (* "'<type_name>' object has no attribute '<attr>'" *)
| TypeError (type_name : string)
    (* "'<type_name>' object is not callable" *)
| RecursionError
| Raised (what : string)
    (* an exception raised by the body of a target method *)
| OutsideModel.
    (* the program left the fragment of Python this development covers *)

Inductive Res (A : Type) :=
| Ok (a : A)
| Raise (e : Exn).
Arguments Ok {A} a.
Arguments Raise {A} e.

Inductive Cell :=
| CInst (cls : string) (dict : gmap string Value)
    (* instance of a user class: class name and instance dictionary *)
| CProxy (dict : gmap string Value)
    (* instance of ProfilingWrapper with its own instance dictionary *)
| CList (items : list R)
    (* a Python list of floats *)
| CArray (items : list R).
    (* a one-dimensional numpy array of floats *)

(** The state of the interpreter.  [_profiling_data] is the class attribute
    [ProfilingWrapper._profiling_data]; its values are references to list
    cells, so that [append] and [clear] act in place. *)
Record World := mkWorld {
  heap : gmap loc Cell;
  _profiling_data : gmap string loc;
  clock : R
}.

Definition set_heap (h : gmap loc Cell) (w : World) : World :=
  mkWorld h (_profiling_data w) (clock w).

Definition alloc (c : Cell) (w : World) : loc * World :=
  let l := fresh (dom (heap w)) in (l, set_heap (<[l := c]> (heap w)) w).

(** ** Computations that may raise *)

Definition M (A : Type) : Type := World → Res A * World.

Definition ret {A} (a : A) : M A := λ w, (Ok a, w).
Definition raise {A} (e : Exn) : M A := λ w, (Raise e, w).
Definition bind {A B} (m : M A) (k : A → M B) : M B :=
  λ w, match m w with
       | (Ok a, w') => k a w'
       | (Raise e, w') => (Raise e, w')
       end.
(** A read that does not change the state. *)
Definition observe {A} (r : World → Res A) : M A := λ w, (r w, w).

Notation "'let*' x ':=' m 'in' k" := (bind m (λ x, k))
  (at level 10, x name, m at level 100, k at level 200).

(** ** User classes

    A class is a table of methods.  A method body sees its arguments
    ([*args] and [**kwargs]) and the instance dictionary of its receiver; it
    produces an outcome, the receiver's new dictionary and the time the call
    took on the performance counter. *)

Definition Args : Type := list Value * list (string * Value).

Record Effect := mkEffect {
  outcome : Res Value;
  new_dict : gmap string Value;
  elapsed : R
}.

Definition Body : Type := Args → gmap string Value → Effect.
Definition ClassTable : Type := string → string → option Body.

(** [time.perf_counter] is a monotonic clock: no method body takes negative
    time. *)
Definition monotonic_clock (ct : ClassTable) : Prop :=
  ∀ cls name body args d, ct cls name = Some body → (0 <= elapsed (body args d))%R.

(** ** Name spaces supplied by the runtime *)

(** Attributes every object inherits from [object], together with the
    per-class [__dict__], [__module__] and [__weakref__]. *)
Definition object_namespace : list string :=
  [ "__class__"; "__delattr__"; "__dict__"; "__dir__"; "__doc__"; "__eq__";
    "__format__"; "__ge__"; "__getattribute__"; "__getstate__"; "__gt__";
    "__hash__"; "__init__"; "__init_subclass__"; "__le__"; "__lt__";
    "__module__"; "__ne__"; "__new__"; "__reduce__"; "__reduce_ex__";
    "__repr__"; "__setattr__"; "__sizeof__"; "__str__"; "__subclasshook__";
    "__weakref__" ].

(** Names bound by the class body of ProfilingWrapper. *)
Definition class_body_names : list string :=
  [ "_profiling_data"; "__init__"; "__getattr__"; "__setattr__";
    "get_profiling_data"; "get_all_profiling_data"; "clear_profiling_data";
    "get_statistics"; "__annotations__" ].

Definition class_namespace : list string := class_body_names ++ object_namespace.

(** Slots whose value is plain data rather than something that can be
    called. *)
Definition data_slots : list string :=
  [ "_profiling_data"; "__annotations__"; "__dict__"; "__doc__"; "__module__";
    "__weakref__" ].

(** Slots that [object.__setattr__] treats specially. *)
Definition special_slots : list string := [ "__class__"; "__dict__"; "__weakref__" ].

(** ** Attribute access *)

Section Interpreter.
Context (ct : ClassTable).

(** [callable(v)] *)
Definition callable (w : World) (v : Value) : bool :=
  match v with
  | VBound _ _ | VTimed _ _ _ => true
  | VSlot _ name => negb (bool_decide (name ∈ data_slots))
  | VRef l =>
      match heap w !! l with
      | Some (CInst cls _) => bool_decide (is_Some (ct cls "__call__"))
      | _ => false
      end
  | VNone | VInt _ | VStr _ => false
  end.

(** [v.__class__.__name__] *)
Definition class_name_of (w : World) (v : Value) : Res string :=
  match v with
  | VNone => Ok "NoneType"
  | VInt _ => Ok "int"
  | VStr _ => Ok "str"
  | VBound _ _ => Ok "method"
  | VTimed _ _ _ => Ok "function"
  | VSlot _ _ => Raise OutsideModel
  | VRef l =>
      match heap w !! l with
      | Some (CInst cls _) => Ok cls
      | Some (CProxy _) => Ok "ProfilingWrapper"
      | Some (CList _) => Ok "list"
      | Some (CArray _) => Ok "ndarray"
      | None => Raise OutsideModel
      end
  end.

(** Attribute lookup on an instance of a user class: the instance
    dictionary, then the methods of the class, then what [object] gives. *)
Definition instance_lookup (l : loc) (cls : string) (d : gmap string Value)
    (name : string) : Res Value :=
  match d !! name with
  | Some v => Ok v
  | None =>
      match ct cls name with
      | Some _ => Ok (VBound l name)
      | None =>
          if bool_decide (name ∈ object_namespace) then Ok (VSlot l name)
          else Raise (AttributeError cls name)
      end
  end.

(** What the proxy finds on itself before [__getattr__] is consulted: its
    instance dictionary, then the attributes of its class. *)
Definition own_lookup (l : loc) (d : gmap string Value) (name : string) : option Value :=
  match d !! name with
  | Some v => Some v
  | None => if bool_decide (name ∈ class_namespace) then Some (VSlot l name) else None
  end.

(** [ProfilingWrapper.__getattr__], over the [getattr] of the runtime. *)
Definition __getattr__ (getattr : Value → string → World → Res Value)
    (self : loc) (name : string) (w : World) : Res Value :=
  match getattr (VRef self) "_wrapped_obj" w with
  | Raise e => Raise e
  | Ok wrapped_obj =>
      match getattr wrapped_obj name w with
      | Raise e => Raise e
      | Ok attr =>
          if callable w attr then Ok (VTimed self name attr) else Ok attr
      end
  end.

(** The builtin [getattr(v, name)].  [fuel] bounds the depth of delegation
    through proxies, as the interpreter's recursion limit does. *)
Fixpoint py_getattr (fuel : nat) (v : Value) (name : string) (w : World) : Res Value :=
  match v with
  | VRef l =>
      match heap w !! l with
      | Some (CInst cls d) => instance_lookup l cls d name
      | Some (CProxy d) =>
          match own_lookup l d name with
          | Some x => Ok x
          | None =>
              match fuel with
              | O => Raise RecursionError
              | S n => __getattr__ (py_getattr n) l name w
              end
          end
      | _ => Raise OutsideModel
      end
  | _ => Raise OutsideModel
  end.

(** [object.__setattr__(self, name, value)] on a proxy. *)
Definition object_setattr (self : loc) (name : string) (value : Value) : M unit :=
  λ w, match heap w !! self with
       | Some (CProxy d) =>
           if bool_decide (name ∈ special_slots) then (Raise OutsideModel, w)
           else (Ok tt, set_heap (<[self := CProxy (<[name := value]> d)]> (heap w)) w)
       | _ => (Raise OutsideModel, w)
       end.

(** [ProfilingWrapper.__setattr__], over the [getattr] and [setattr] of the
    runtime. *)
Definition __setattr__ (getattr : Value → string → World → Res Value)
    (setattr : Value → string → Value → M unit)
    (self : loc) (name : string) (value : Value) : M unit :=
  if String.prefix "_" name then object_setattr self name value
  else
    let* wrapped_obj := observe (getattr (VRef self) "_wrapped_obj") in
    setattr wrapped_obj name value.

(** The builtin [setattr(v, name, value)]: instances of user classes store
    into their dictionary, proxies run [__setattr__]. *)
Fixpoint py_setattr (fuel : nat) (v : Value) (name : string) (value : Value) : M unit :=
  match v with
  | VRef l =>
      λ w, match heap w !! l with
           | Some (CInst cls d) =>
               (Ok tt, set_heap (<[l := CInst cls (<[name := value]> d)]> (heap w)) w)
           | Some (CProxy _) =>
               match fuel with
               | O => (Raise RecursionError, w)
               | S n => __setattr__ (py_getattr n) (py_setattr n) l name value w
               end
           | _ => (Raise OutsideModel, w)
           end
  | _ => raise OutsideModel
  end.

(** [ProfilingWrapper.__init__]: both assignments go through [__setattr__]
    and, the names starting with an underscore, land on the proxy. *)
Definition __init__ (fuel : nat) (self : loc) (obj : Value) : M unit :=
  let* _ := __setattr__ (py_getattr fuel) (py_setattr fuel) self "_wrapped_obj" obj in
  let* cn := observe (λ w, class_name_of w obj) in
  __setattr__ (py_getattr fuel) (py_setattr fuel) self "_class_name" (VStr cn).

(** The expression [ProfilingWrapper(obj)]. *)
Definition ProfilingWrapper (fuel : nat) (obj : Value) : M loc :=
  λ w, let '(self, w0) := alloc (CProxy ∅) w in
       match __init__ fuel self obj w0 with
       | (Ok _, w1) => (Ok self, w1)
       | (Raise e, w1) => (Raise e, w1)
       end.

(** ** The class-level registry

    [_profiling_data] is a [defaultdict(list)]: subscripting a missing key
    runs the default factory, binds the key to the new empty list and
    returns it; a membership test or an iteration creates nothing. *)

(** [key in cls._profiling_data] *)
Definition dd_contains (key : string) (w : World) : bool :=
  bool_decide (is_Some (_profiling_data w !! key)).

(** [cls._profiling_data[key]] *)
Definition dd_getitem (key : string) : M loc :=
  λ w, match _profiling_data w !! key with
       | Some l => (Ok l, w)
       | None =>
           let l := fresh (dom (heap w)) in
           (Ok l, mkWorld (<[l := CList []]> (heap w))
                          (<[key := l]> (_profiling_data w)) (clock w))
       end.

(** [cls._profiling_data.clear()] *)
Definition dd_clear : M unit :=
  λ w, (Ok tt, mkWorld (heap w) ∅ (clock w)).

(** [lst.append(x)] *)
Definition list_append (l : loc) (x : R) : M unit :=
  λ w, match heap w !! l with
       | Some (CList xs) => (Ok tt, set_heap (<[l := CList (xs ++ [x])]> (heap w)) w)
       | _ => (Raise OutsideModel, w)
       end.

(** [lst.clear()] *)
Definition list_clear (l : loc) : M unit :=
  λ w, match heap w !! l with
       | Some (CList _) => (Ok tt, set_heap (<[l := CList []]> (heap w)) w)
       | _ => (Raise OutsideModel, w)
       end.

(** [np.array(lst)] copies the items of the list into a new array. *)
Definition np_array (l : loc) : M loc :=
  λ w, match heap w !! l with
       | Some (CList xs) => let '(a, w') := alloc (CArray xs) w in (Ok a, w')
       | _ => (Raise OutsideModel, w)
       end.

(** [np.array([...])] on a list display. *)
Definition np_array_of (xs : list R) : M loc :=
  λ w, let '(a, w') := alloc (CArray xs) w in (Ok a, w').

(** The items of an array, as [len] and the numpy reductions see them. *)
Definition array_items (a : loc) : M (list R) :=
  λ w, match heap w !! a with
       | Some (CArray xs) => (Ok xs, w)
       | _ => (Raise OutsideModel, w)
       end.

(** [ProfilingWrapper._profiling_data[key].append(execution_time)] *)
Definition record_sample (key : string) (execution_time : R) : M unit :=
  let* l := dd_getitem key in
  list_append l execution_time.

(** [time.perf_counter()].  The clock of the model advances only while the
    body of a method runs ([call_method]); the time that the wrapper's own
    steps take (the attribute lookup, the key, the two readings, the append)
    is idealised to zero.  A sample of the model is therefore the time of
    the wrapped call alone, where the code measures that time and the
    wrapper's own; no property below compares the clock after a call
    through a proxy with the clock after a direct call, or the samples that
    two nested closures record for one call. *)
Definition perf_counter : M R := λ w, (Ok (clock w), w).

(** ** Calls *)

(** [f"{v}"] for the values whose rendering the model fixes. *)
Definition format (v : Value) : Res string :=
  match v with
  | VStr s => Ok s
  | _ => Raise OutsideModel
  end.

(** Calling method [name] of the class of [self]: the body runs on the
    receiver's dictionary and the clock advances by the time it takes. *)
Definition call_method (self : loc) (name : string) (args : Args) : M Value :=
  λ w, match heap w !! self with
       | Some (CInst cls d) =>
           match ct cls name with
           | Some body =>
               let eff := body args d in
               (outcome eff,
                mkWorld (<[self := CInst cls (new_dict eff)]> (heap w))
                        (_profiling_data w) (clock w + elapsed eff))
           | None => (Raise (AttributeError cls name), w)
           end
       | _ => (Raise OutsideModel, w)
       end.

(** The closure [timed_method] of [__getattr__]; [attr] is the captured
    callable, already applied to the semantics of a call. *)
Definition timed_method (getattr : Value → string → World → Res Value)
    (attr : Args → M Value) (self : loc) (name : string) (args : Args) : M Value :=
  let* class_name := observe (getattr (VRef self) "_class_name") in
  let* prefix := observe (λ _, format class_name) in
  let key := prefix +:+ "." +:+ name in
  let* start_time := perf_counter in
  let* result := attr args in
  let* end_time := perf_counter in
  let execution_time := (end_time - start_time)%R in
  let* _ := record_sample key execution_time in
  ret result.

(** A call [f(...)] with positional and keyword arguments. *)
Fixpoint call (fuel : nat) (f : Value) (args : Args) : M Value :=
  match f with
  | VBound self name => call_method self name args
  | VTimed self name attr =>
      timed_method (py_getattr fuel) (call fuel attr) self name args
  | VRef l =>
      λ w, match heap w !! l with
           | Some (CInst cls _) =>
               match ct cls "__call__" with
               | Some _ => call_method l "__call__" args w
               | None => (Raise (TypeError cls), w)
               end
           | Some (CProxy _) => (Raise (TypeError "ProfilingWrapper"), w)
           | Some (CList _) => (Raise (TypeError "list"), w)
           | Some (CArray _) => (Raise (TypeError "numpy.ndarray"), w)
           | None => (Raise OutsideModel, w)
           end
  | VNone => raise (TypeError "NoneType")
  | VInt _ => raise (TypeError "int")
  | VStr _ => raise (TypeError "str")
  | VSlot _ _ => raise OutsideModel
  end.



End Interpreter.

(** ** The registry interface (class methods) *)

Definition get_profiling_data (key : string) : M loc :=
  λ w, if dd_contains key w
       then (let* l := dd_getitem key in np_array l) w
       else np_array_of [] w.

(** The dictionary comprehension of [get_all_profiling_data], over the items
    of the registry in iteration order. *)
Fixpoint copy_items (items : list (string * loc)) : M (gmap string loc) :=
  match items with
  | [] => ret ∅
  | (key, times) :: rest =>
      let* a := np_array times in
      let* m := copy_items rest in
      ret (<[key := a]> m)
  end.

Definition get_all_profiling_data : M (gmap string loc) :=
  λ w, copy_items (map_to_list (_profiling_data w)) w.

Definition clear_profiling_data (key : option string) : M unit :=
  match key with
  | None => dd_clear
  | Some k =>
      λ w, if dd_contains k w
           then (let* l := dd_getitem k in list_clear l) w
           else (Ok tt, w)
  end.

(** ** Descriptive statistics

    The reductions come from numpy, which is not part of the repository;
    they are modelled after numpy's documentation.  numpy computes them in
    binary64 arithmetic; here they are taken over the reals, so rounding and
    overflow are outside the model.  What is exact in both, [len], the
    comparisons behind [np.min] and [np.max], and the sign of a sum or a
    mean of positive items, is what the properties below rely on; none
    relies on an identity that holds only without rounding, such as
    [mean * count = total] or [std = 0] for equal samples. *)

Local Open Scope R_scope.

Local Instance Rle_decision : RelDecision Rle := Rle_dec.

(** [np.sum] *)
Definition np_sum (xs : list R) : R := foldr Rplus 0 xs.

(** [np.mean]: the sum divided by the number of items. *)
Definition np_mean (xs : list R) : R := np_sum xs / INR (length xs).

(** [np.var(a, ddof)]: the average of [abs(a - a.mean())**2], where the
    divisor of the average is [N - ddof]. *)
Definition np_var (ddof : nat) (xs : list R) : R :=
  np_sum ((λ x, Rsqr (Rabs (x - np_mean xs))) <$> xs) / (INR (length xs) - INR ddof).

(** [np.std(a, ddof)]: the square root of [np.var(a, ddof)]. *)
Definition np_std (ddof : nat) (xs : list R) : R := sqrt (np_var ddof xs).

(** [np.min] and [np.max] of the non-empty sequence [x :: xs]. *)
Definition np_min (x : R) (xs : list R) : R := foldl Rmin x xs.
Definition np_max (x : R) (xs : list R) : R := foldl Rmax x xs.

(** [np.median]: the middle item of a sorted copy, or the mean of the two
    middle items when the length is even. *)
Definition np_median (xs : list R) : R :=
  let sorted := merge_sort Rle xs in
  let n := length sorted in
  if Nat.even n
  then (nth (n / 2 - 1) sorted 0 + nth (n / 2) sorted 0) / 2
  else nth (n / 2) sorted 0.

Module Stats.
(** The dictionary returned by [get_statistics], one field per key. *)
Record t := mk {
  count : nat;
  mean : R;
  median : R;
  std : R;
  min : R;
  max : R;
  total : R
}.

Definition zero : t := mk 0 0 0 0 0 0 0.
End Stats.

Definition get_statistics (key : string) : M Stats.t :=
  let* data := get_profiling_data key in
  let* items := array_items data in
  match items with
  | [] => ret Stats.zero
  | x :: rest =>
      ret {| Stats.count := length items;
             Stats.mean := np_mean items;
             Stats.median := np_median items;
             Stats.std := np_std 0 items;
             Stats.min := np_min x rest;
             Stats.max := np_max x rest;
             Stats.total := np_sum items |}
  end.

(** ** What the specification talks about *)

(** The sample sequence of a key: empty when the key is not bound. *)
Definition samples (key : string) (w : World) : list R :=
  match _profiling_data w !! key with
  | Some l => match heap w !! l with Some (CList xs) => xs | _ => [] end
  | None => []
  end.

(** The registry is well formed when every key is bound to a list of the
    heap and no list is bound to two keys. *)
Definition wf_registry (w : World) : Prop :=
  (∀ k l, _profiling_data w !! k = Some l → ∃ xs, heap w !! l = Some (CList xs)) ∧
  (∀ k1 k2 l, _profiling_data w !! k1 = Some l → _profiling_data w !! k2 = Some l → k1 = k2).

(** [arrays_added w w'] : going from [w] to [w'] only allocated arrays. *)
Definition arrays_added (w w' : World) : Prop :=
  _profiling_data w' = _profiling_data w ∧ clock w' = clock w ∧
  ∀ l, heap w' !! l = heap w !! l ∨
       (heap w !! l = None ∧ ∃ xs, heap w' !! l = Some (CArray xs)).

(** Frames used by the statements below. *)

Definition is_list_cell (c : Cell) : Prop :=
  match c with CList _ => True | _ => False end.

(** Any mutation of an array in place ([a[i] = y], [a.sort()], [a[:] = ys])
    leaves the array cell with some new items [ys]. *)
Definition array_mutate (a : loc) (ys : list R) : M unit :=
  λ w, match heap w !! a with
       | Some (CArray _) => (Ok tt, set_heap (<[a := CArray ys]> (heap w)) w)
       | _ => (Raise OutsideModel, w)
       end.

(** [detached a xs w w1]: in [w1] the location [a], not allocated in [w],
    holds an array with items [xs] that shares nothing with the registry:
    mutating it changes no sample sequence, and recording a sample does not
    change it. *)
Definition detached (a : loc) (xs : list R) (w w1 : World) : Prop :=
  heap w !! a = None ∧
  heap w1 !! a = Some (CArray xs) ∧
  (∀ ys, ∃ w2, array_mutate a ys w1 = (Ok tt, w2) ∧
               _profiling_data w2 = _profiling_data w ∧
               ∀ k, samples k w2 = samples k w) ∧
  (∀ k x, ∃ w2, record_sample k x w1 = (Ok tt, w2) ∧
                heap w2 !! a = Some (CArray xs)).

(** [instances_updated w w']: going from [w] to [w'] only replaced the
    dictionaries of instances of user classes. *)
Definition instances_updated (w w' : World) : Prop :=
  _profiling_data w' = _profiling_data w ∧
  ∀ l, heap w' !! l = heap w !! l ∨
       ∃ cls d d', heap w !! l = Some (CInst cls d) ∧
                   heap w' !! l = Some (CInst cls d').

(** [proxy_of w p t cls]: in [w], [p] is a proxy as [__init__] leaves it
    around the instance [t] of class [cls]; its dictionary holds nothing but
    names that [__setattr__] keeps on the proxy. *)
Definition proxy_of (w : World) (p t : loc) (cls : string) : Prop :=
  ∃ dp d, heap w !! p = Some (CProxy dp) ∧
          heap w !! t = Some (CInst cls d) ∧
          dp !! "_wrapped_obj" = Some (VRef t) ∧
          dp !! "_class_name" = Some (VStr cls) ∧
          ∀ name, is_Some (dp !! name) → String.prefix "_" name = true.

(** Names that the proxy hands over to the wrapped object: no leading
    underscore, and not an attribute of the proxy's own class. *)
Definition forwarded (name : string) : bool :=
  negb (String.prefix "_" name) && bool_decide (name ∉ class_namespace).

(** The registry key of method [name] of class [cls]. *)
Definition key_of (cls name : string) : string := cls +:+ "." +:+ name.


(** ** Reachable states

    One step of a client of the module: creating an instance of a user
    class, wrapping a value, assigning an attribute, calling a value,
    mutating an array it was handed, or using the registry interface. *)
Inductive step (ct : ClassTable) : World → World → Prop :=
| step_new cls d w :
    step ct w (alloc (CInst cls d) w).2
| step_wrap fuel obj w :
    step ct w (ProfilingWrapper ct fuel obj w).2
| step_setattr fuel v name value w :
    step ct w (py_setattr ct fuel v name value w).2
| step_call fuel f args w :
    step ct w (call ct fuel f args w).2
| step_array_mutate a ys w :
    step ct w (array_mutate a ys w).2
| step_get_profiling_data key w :
    step ct w (get_profiling_data key w).2
| step_get_all_profiling_data w :
    step ct w (get_all_profiling_data w).2
| step_clear_profiling_data key w :
    step ct w (clear_profiling_data key w).2
| step_get_statistics key w :
    step ct w (get_statistics key w).2.

(** The states a program can reach when it starts with an empty
    registry. *)
Inductive reachable (ct : ClassTable) : World → Prop :=
| reachable_start h c : reachable ct (mkWorld h ∅ c)
| reachable_step w w' : reachable ct w → step ct w w' → reachable ct w'.

(** ** A concrete program

    [SampleClass] of the test-suite, with a method that raises added, and two
    of its instances. *)
Module Demo.

Definition fast_method : Body :=
  λ _ d, mkEffect (Ok (VStr "fast")) d (1 / 1000).

Definition slow_method : Body :=
  λ _ d, mkEffect (Ok (VStr "slow")) d (1 / 100).

Definition increment_counter : Body :=
  λ _ d, match d !! "counter" with
         | Some (VInt n) =>
             mkEffect (Ok (VInt (n + 1))) (<["counter" := VInt (n + 1)]> d) 0
         | Some _ => mkEffect (Raise (Raised "TypeError")) d 0
         | None => mkEffect (Raise (AttributeError "SampleClass" "counter")) d 0
         end.

Definition failing_method : Body :=
  λ _ d, mkEffect (Raise (Raised "ValueError")) d (1 / 1000).

Definition classes : ClassTable :=
  λ cls name,
    if decide (cls = "SampleClass") then
      if decide (name = "fast_method") then Some fast_method
      else if decide (name = "slow_method") then Some slow_method
      else if decide (name = "increment_counter") then Some increment_counter
      else if decide (name = "failing_method") then Some failing_method
      else None
    else None.

Definition no_args : Args := ([], []).

Definition obj1 : loc := 1%positive.
Definition obj2 : loc := 2%positive.

(** Two instances, right after [SampleClass()] twice; the registry is
    empty. *)
Definition initial : World :=
  mkWorld (<[obj2 := CInst "SampleClass" {["counter" := VInt 0]}]>
             {[obj1 := CInst "SampleClass" {["counter" := VInt 0]}]})
          ∅ 0.

(** [proxy = ProfilingWrapper(obj1)] *)
Definition proxy : loc := 3%positive.
Definition wrapped : World := (ProfilingWrapper classes 1 (VRef obj1) initial).2.

(** The registry after two recorded calls of [fast_method]. *)
Definition recorded : World :=
  mkWorld {[obj1 := CList [1 / 1000; 3 / 1000]]}
          {["SampleClass.fast_method" := obj1]} 0.

End Demo.

Module DemoRuns.
Import Demo.

(** [proxy.failing_method()] in [wrapped]: the state the wrapped call
    leaves behind. *)
Definition after_failure : World :=
  (call classes 1 (VBound obj1 "failing_method") no_args wrapped).2.

(** The dictionary of the proxy in [wrapped]. *)
Definition proxy_dict : gmap string Value :=
  <["_class_name" := VStr "SampleClass"]> (<["_wrapped_obj" := VRef obj1]> ∅).

(** The dictionary of a new instance of [SampleClass]. *)
Definition new_instance : gmap string Value := {["counter" := VInt 0]}.

(** [target.fast_method], a callable value. *)
Definition hook : Value := VBound obj1 "fast_method".

(** The state after [proxy.hook = target.fast_method]. *)
Definition hooked : World :=
  (py_setattr classes 2 (VRef proxy) "hook" hook wrapped).2.

(** The state after [proxy.get_statistics = 5]. *)
Definition shadowed : World :=
  (py_setattr classes 2 (VRef proxy) "get_statistics" (VInt 5) wrapped).2.
End DemoRuns.




Module DemoMore.
Import Demo.


End DemoMore.
(** * Properties *)

(** ** The heap *)

Lemma fresh_not_allocated (w : World) : heap w !! fresh (dom (heap w)) = None.
Proof. apply not_elem_of_dom, is_fresh. Qed.

Lemma samples_bound key l xs w :
  _profiling_data w !! key = Some l → heap w !! l = Some (CList xs) →
  samples key w = xs.
Proof. intros Hk Hl. unfold samples. by rewrite Hk, Hl. Qed.

Lemma samples_unbound key w :
  _profiling_data w !! key = None → samples key w = [].
Proof. intros Hk. unfold samples. by rewrite Hk. Qed.

Lemma wf_bound key l w :
  wf_registry w → _profiling_data w !! key = Some l →
  heap w !! l = Some (CList (samples key w)).
Proof.
  intros [Hl _] Hk. destruct (Hl _ _ Hk) as [xs Hxs].
  by rewrite (samples_bound _ _ _ _ Hk Hxs).
Qed.

(** Allocating an array leaves every sample sequence as it was. *)
Lemma samples_alloc_array key xs w :
  samples key (alloc (CArray xs) w).2 = samples key w.
Proof.
  unfold samples, alloc; simpl.
  destruct (_profiling_data w !! key) as [l|]; [|done].
  destruct (decide (l = fresh (dom (heap w)))) as [->|Hne].
  - by rewrite lookup_insert_eq, fresh_not_allocated.
  - by rewrite lookup_insert_ne.
Qed.

(** ** [get_profiling_data] *)

(** On a well-formed registry the read always succeeds: it allocates one new
    array holding the samples of the key and changes nothing else. *)
Lemma get_profiling_data_spec key w :
  wf_registry w →
  get_profiling_data key w =
    (Ok (fresh (dom (heap w))), (alloc (CArray (samples key w)) w).2).
Proof.
  intros Hwf. unfold get_profiling_data, dd_contains.
  destruct (_profiling_data w !! key) as [l|] eqn:Hk.
  - rewrite bool_decide_eq_true_2 by eauto.
    unfold bind, dd_getitem, np_array. rewrite Hk.
    by rewrite (wf_bound _ _ _ Hwf Hk).
  - rewrite bool_decide_eq_false_2 by (intros [? ?]; done).
    by rewrite (samples_unbound _ _ Hk).
Qed.

(** ** Frames *)

Lemma arrays_added_refl w : arrays_added w w.
Proof. repeat split; auto. Qed.

Lemma arrays_added_trans w1 w2 w3 :
  arrays_added w1 w2 → arrays_added w2 w3 → arrays_added w1 w3.
Proof.
  intros (Hp1 & Hc1 & H1) (Hp2 & Hc2 & H2).
  split; [congruence|]. split; [congruence|].
  intros l. destruct (H2 l) as [E2|[N2 A2]], (H1 l) as [E1|[N1 A1]].
  - left; congruence.
  - right; split; [done|]. destruct A1 as [xs A1]. exists xs. congruence.
  - right; split; [congruence|done].
  - destruct A1 as [xs A1]. congruence.
Qed.

Lemma arrays_added_alloc xs w : arrays_added w (alloc (CArray xs) w).2.
Proof.
  repeat split; simpl. intros l.
  destruct (decide (fresh (dom (heap w)) = l)) as [<-|Hne].
  - right. rewrite lookup_insert_eq. split; [apply fresh_not_allocated | eauto].
  - left. by rewrite lookup_insert_ne.
Qed.

Lemma arrays_added_subseteq w w' : arrays_added w w' → heap w ⊆ heap w'.
Proof.
  intros (_ & _ & H). apply map_subseteq_spec. intros l c Hl.
  destruct (H l) as [E|[N _]]; congruence.
Qed.

Lemma arrays_added_samples w w' key :
  arrays_added w w' → samples key w' = samples key w.
Proof.
  intros (Hp & _ & H). unfold samples. rewrite Hp.
  destruct (_profiling_data w !! key) as [l|]; [|done].
  destruct (H l) as [->|[-> [xs ->]]]; done.
Qed.

Lemma arrays_added_wf w w' : arrays_added w w' → wf_registry w → wf_registry w'.
Proof.
  intros (Hp & _ & H) [Hl Hinj]. split; rewrite Hp; [|done].
  intros k l Hk. destruct (Hl _ _ Hk) as [xs Hxs]. exists xs.
  destruct (H l) as [E|[N _]]; congruence.
Qed.

Lemma get_profiling_data_frame key w :
  arrays_added w (get_profiling_data key w).2.
Proof.
  unfold get_profiling_data. destruct (dd_contains key w) eqn:Hc.
  - apply bool_decide_eq_true in Hc as [l Hk].
    unfold bind, dd_getitem, np_array. rewrite Hk.
    destruct (heap w !! l) as [[]|];
      first [apply arrays_added_refl | apply arrays_added_alloc].
  - apply arrays_added_alloc.
Qed.

Lemma copy_items_frame items w : arrays_added w (copy_items items w).2.
Proof.
  revert w. induction items as [|[k l] rest IH]; intros w; simpl.
  - apply arrays_added_refl.
  - unfold bind at 1. unfold np_array.
    destruct (heap w !! l) as [[| |xs|]|]; try apply arrays_added_refl.
    simpl. unfold bind.
    specialize (IH (set_heap (<[fresh (dom (heap w)) := CArray xs]> (heap w)) w)).
    destruct (copy_items rest _) as [[m|e] w'] eqn:E; simpl in *;
      (eapply arrays_added_trans; [apply (arrays_added_alloc xs w) | exact IH]).
Qed.

Lemma get_statistics_frame key w : arrays_added w (get_statistics key w).2.
Proof.
  unfold get_statistics, bind.
  pose proof (get_profiling_data_frame key w) as Hf.
  destruct (get_profiling_data key w) as [[a|e] w1]; [|exact Hf].
  unfold array_items. simpl in Hf.
  destruct (heap w1 !! a) as [[| | |[|x xs]]|]; exact Hf.
Qed.

(** C9. The read operations [get_profiling_data], [get_all_profiling_data]
    and [get_statistics] leave the registry as it was, for every state and
    every key, recorded or not: the class-level dictionary binds the same
    keys to the same lists (no key is created by a read), every cell that
    existed is untouched, and every sample sequence is the same. *)
Theorem reads_leave_registry_unchanged (key : string) (w : World) :
  Forall (λ w', _profiling_data w' = _profiling_data w ∧
                heap w ⊆ heap w' ∧
                ∀ k, samples k w' = samples k w)
         [ (get_profiling_data key w).2;
           (get_all_profiling_data w).2;
           (get_statistics key w).2 ].
Proof.
  assert (∀ w', arrays_added w w' →
            _profiling_data w' = _profiling_data w ∧ heap w ⊆ heap w' ∧
            ∀ k, samples k w' = samples k w) as Hframe.
  { intros w' Hf. split; [apply Hf|]. split; [by apply arrays_added_subseteq|].
    intros k. by apply arrays_added_samples. }
  apply Forall_cons_2; [apply Hframe, get_profiling_data_frame|].
  apply Forall_cons_2; [apply Hframe, copy_items_frame|].
  apply Forall_cons_2; [apply Hframe, get_statistics_frame|].
  apply Forall_nil_2.
Qed.

(** ** Statistics *)

Lemma get_statistics_spec key w :
  wf_registry w →
  get_statistics key w =
    (Ok match samples key w with
        | [] => Stats.zero
        | x :: rest =>
            let items := samples key w in
            Stats.mk (length items) (np_mean items) (np_median items)
                     (np_std 0 items) (np_min x rest) (np_max x rest) (np_sum items)
        end,
     (alloc (CArray (samples key w)) w).2).
Proof.
  intros Hwf. unfold get_statistics, bind.
  rewrite (get_profiling_data_spec _ _ Hwf).
  unfold array_items, alloc. simpl. rewrite lookup_insert_eq.
  by destruct (samples key w).
Qed.

(** C4. For every key whose sample sequence is empty, which includes every
    key that was never recorded, [get_statistics] succeeds and returns the
    record [{count: 0, mean: 0.0, median: 0.0, std: 0.0, min: 0.0, max: 0.0,
    total: 0.0}]. *)
Theorem get_statistics_empty_is_zero_record (key : string) (w : World) :
  wf_registry w →
  samples key w = [] →
  ∃ w', get_statistics key w =
          (Ok {| Stats.count := 0; Stats.mean := 0; Stats.median := 0;
                 Stats.std := 0; Stats.min := 0; Stats.max := 0;
                 Stats.total := 0 |}, w').
Proof.
  intros Hwf Hempty. rewrite (get_statistics_spec _ _ Hwf), Hempty. eauto.
Qed.

(** ** Recording a sample *)

(** The registry line of [timed_method] always succeeds on a well-formed
    registry; it extends the sequence of its key by one item at the end and
    touches nothing but that list. *)
Lemma record_sample_spec key x w :
  wf_registry w →
  ∃ w', record_sample key x w = (Ok tt, w') ∧
        wf_registry w' ∧
        clock w' = clock w ∧
        samples key w' = (samples key w ++ [x])%list ∧
        (∀ k, k ≠ key → samples k w' = samples k w) ∧
        (∀ l c, heap w !! l = Some c → ¬ is_list_cell c → heap w' !! l = Some c).
Proof.
  intros Hwf. pose proof Hwf as [Hl Hinj]. unfold record_sample, bind, dd_getitem.
  destruct (_profiling_data w !! key) as [l|] eqn:Hk.
  - pose proof (wf_bound _ _ _ Hwf Hk) as Hxs.
    unfold list_append. rewrite Hxs. eexists. split; [reflexivity|].
    split; [|split; [done|split; [|split]]].
    + split; simpl.
      * intros k l' Hk'. destruct (decide (l = l')) as [<-|Hne].
        -- rewrite lookup_insert_eq. eauto.
        -- rewrite lookup_insert_ne by done. eauto.
      * done.
    + unfold samples at 1. simpl. by rewrite Hk, lookup_insert_eq.
    + intros k Hne. unfold samples. simpl.
      destruct (_profiling_data w !! k) as [l'|] eqn:Hk'; [|done].
      rewrite lookup_insert_ne; [done|]. intros <-. apply Hne. by eapply Hinj.
    + intros l' c Hc Hnl. simpl. rewrite lookup_insert_ne; [done|].
      intros <-. rewrite Hxs in Hc. injection Hc as <-. by apply Hnl.
  - set (l := fresh (dom (heap w))).
    assert (heap w !! l = None) as Hfresh by apply fresh_not_allocated.
    assert (∀ k l', _profiling_data w !! k = Some l' → l' ≠ l) as Hold.
    { intros k l' Hk' ->. destruct (Hl _ _ Hk') as [xs Hxs]. congruence. }
    unfold list_append. simpl. rewrite lookup_insert_eq.
    eexists. split; [reflexivity|].
    split; [|split; [done|split; [|split]]].
    + split; simpl.
      * intros k l'. destruct (decide (key = k)) as [<-|Hne].
        -- rewrite lookup_insert_eq. intros [= <-].
           rewrite lookup_insert_eq. eauto.
        -- rewrite lookup_insert_ne by done. intros Hk'.
           rewrite !lookup_insert_ne by (symmetry; by eapply Hold). eauto.
      * intros k1 k2 l'.
        destruct (decide (key = k1)) as [<-|Hne1], (decide (key = k2)) as [<-|Hne2];
          rewrite ?lookup_insert_eq, ?lookup_insert_ne by done; try done.
        -- intros [= <-] Hk2. by destruct (Hold _ _ Hk2).
        -- intros Hk1 [= <-]. by destruct (Hold _ _ Hk1).
        -- apply Hinj.
    + unfold samples at 1. simpl. rewrite !lookup_insert_eq.
      by rewrite (samples_unbound _ _ Hk).
    + intros k Hne. unfold samples. simpl.
      rewrite lookup_insert_ne by done.
      destruct (_profiling_data w !! k) as [l'|] eqn:Hk'; [|done].
      by rewrite !lookup_insert_ne by (symmetry; by eapply Hold).
    + intros l' c Hc Hnl. simpl.
      by rewrite !lookup_insert_ne by (intros <-; congruence).
Qed.

(** ** Clearing *)

Lemma clear_key_frame_aux key w :
  wf_registry w →
  ∃ w', clear_profiling_data (Some key) w = (Ok tt, w') ∧ wf_registry w'.
Proof.
  intros Hwf. unfold clear_profiling_data, dd_contains.
  destruct (_profiling_data w !! key) as [l|] eqn:Hk.
  - rewrite bool_decide_eq_true_2 by eauto.
    unfold bind, dd_getitem, list_clear. rewrite Hk.
    rewrite (wf_bound _ _ _ Hwf Hk). eexists. split; [reflexivity|].
    destruct Hwf as [Hl Hinj]. split; [|done]. intros k l' Hk'. simpl.
    destruct (decide (l = l')) as [<-|Hne].
    + rewrite lookup_insert_eq. eauto.
    + rewrite lookup_insert_ne by done. eauto.
  - rewrite bool_decide_eq_false_2 by (intros [? ?]; done). eauto.
Qed.

(** C5. On every registry, [clear_profiling_data(key)] succeeds; it leaves
    the dictionary's bindings as they were (the key stays bound), empties the
    sample sequence of [key], so that a later read of [key] returns an empty
    array, and leaves the sample sequence of every other key unchanged; when
    [key] is not bound the state is unchanged. *)
Theorem clear_key_empties_only_that_key (key : string) (w : World) :
  wf_registry w →
  ∃ w', clear_profiling_data (Some key) w = (Ok tt, w') ∧
        _profiling_data w' = _profiling_data w ∧
        dd_contains key w' = dd_contains key w ∧
        samples key w' = [] ∧
        (∀ k, k ≠ key → samples k w' = samples k w) ∧
        (_profiling_data w !! key = None → w' = w) ∧
        (∃ a w'', get_profiling_data key w' = (Ok a, w'') ∧
                  heap w'' !! a = Some (CArray [])).
Proof.
  intros Hwf. pose proof Hwf as [Hl Hinj].
  assert (∀ w', wf_registry w' → samples key w' = [] →
            ∃ a w'', get_profiling_data key w' = (Ok a, w'') ∧
                     heap w'' !! a = Some (CArray [])) as Hread.
  { intros w' Hwf' He. rewrite (get_profiling_data_spec _ _ Hwf'), He.
    eexists _, _. split; [reflexivity|]. simpl. apply lookup_insert_eq. }
  unfold clear_profiling_data, dd_contains.
  destruct (_profiling_data w !! key) as [l|] eqn:Hk.
  - rewrite bool_decide_eq_true_2 by eauto.
    unfold bind, dd_getitem, list_clear. rewrite Hk.
    rewrite (wf_bound _ _ _ Hwf Hk).
    set (w' := set_heap _ w).
    assert (samples key w' = []) as Hempty.
    { unfold samples, w'. simpl. by rewrite Hk, lookup_insert_eq. }
    assert (wf_registry w') as Hwf'.
    { split; [|done]. intros k l' Hk'. unfold w'; simpl.
      destruct (decide (l = l')) as [<-|Hne].
      - rewrite lookup_insert_eq. eauto.
      - rewrite lookup_insert_ne by done. eauto. }
    exists w'. split; [done|]. split; [done|].
    split; [unfold w'; simpl; by rewrite bool_decide_eq_true_2 by eauto|].
    split; [done|]. split; [|split; [done|by apply Hread]].
    intros k Hne. unfold samples, w'. simpl.
    destruct (_profiling_data w !! k) as [l'|] eqn:Hk'; [|done].
    rewrite lookup_insert_ne; [done|]. intros <-. apply Hne. by eapply Hinj.
  - rewrite bool_decide_eq_false_2 by (intros [? ?]; done).
    exists w. rewrite Hk. split; [done|]. split; [done|]. split; [done|].
    split; [by apply samples_unbound|]. split; [done|]. split; [done|].
    apply Hread; [done|by apply samples_unbound].
Qed.

(** ** Copies *)

Lemma copy_items_spec items w :
  (∀ k l, (k, l) ∈ items → ∃ xs, heap w !! l = Some (CList xs)) →
  ∃ m w', copy_items items w = (Ok m, w') ∧
          arrays_added w w' ∧
          (∀ k, is_Some (m !! k) ↔ k ∈ items.*1) ∧
          ∀ k a, m !! k = Some a →
            heap w !! a = None ∧
            ∃ l xs, (k, l) ∈ items ∧ heap w !! l = Some (CList xs) ∧
                    heap w' !! a = Some (CArray xs).
Proof.
  revert w. induction items as [|[k0 l0] rest IH]; intros w Hlists.
  - exists ∅, w. split; [done|]. split; [apply arrays_added_refl|].
    split.
    + intros k. rewrite lookup_empty. split; [by intros [? ?]|].
      simpl. by intros ?%elem_of_nil.
    + intros k a. by rewrite lookup_empty.
  - destruct (Hlists k0 l0) as [xs0 Hl0]; [left|].
    set (a0 := fresh (dom (heap w))).
    set (w1 := (alloc (CArray xs0) w).2).
    assert (arrays_added w w1) as Hadd1 by apply arrays_added_alloc.
    assert (heap w !! a0 = None) as Hfresh by apply fresh_not_allocated.
    destruct (IH w1) as (m & w' & Hrun & Hadd & Hdom & Hm).
    { intros k l Hin. destruct (Hlists k l) as [xs Hxs]; [by right|].
      exists xs. eapply lookup_weaken; [exact Hxs|by apply arrays_added_subseteq]. }
    exists (<[k0 := a0]> m), w'. split.
    { simpl. unfold bind at 1. unfold np_array. rewrite Hl0. simpl.
      fold a0. change (set_heap _ w) with w1. unfold bind. by rewrite Hrun. }
    split; [by eapply arrays_added_trans|]. split.
    + intros k. rewrite fmap_cons, elem_of_cons. simpl.
      destruct (decide (k0 = k)) as [<-|Hne].
      * rewrite lookup_insert_eq. split; eauto.
      * rewrite lookup_insert_ne by done. rewrite Hdom.
        split; [by right|]. by intros [?|?].
    + intros k a. destruct (decide (k0 = k)) as [<-|Hne].
      * rewrite lookup_insert_eq. intros [= <-]. split; [done|].
        exists l0, xs0. split; [left|]. split; [done|].
        eapply lookup_weaken; [|by apply arrays_added_subseteq].
        apply lookup_insert_eq.
      * rewrite lookup_insert_ne by done. intros Hka.
        destruct (Hm _ _ Hka) as (Hnone & l & xs & Hin & Hl & Ha).
        assert (heap w !! a = None) as Hnone'.
        { destruct (heap w !! a) as [c|] eqn:Hc; [|done].
          eapply lookup_weaken in Hc; [|by apply arrays_added_subseteq].
          congruence. }
        split; [done|]. exists l, xs. split; [by right|]. split; [|done].
        destruct (Hlists k l) as [xs' Hxs']; [by right|].
        eapply lookup_weaken in Hxs' as Hxs1; [|by apply arrays_added_subseteq].
        congruence.
Qed.

Lemma get_all_profiling_data_spec w :
  wf_registry w →
  ∃ m w', get_all_profiling_data w = (Ok m, w') ∧
          arrays_added w w' ∧
          dom m = dom (_profiling_data w) ∧
          ∀ k a, m !! k = Some a →
            heap w !! a = None ∧ heap w' !! a = Some (CArray (samples k w)).
Proof.
  intros Hwf. unfold get_all_profiling_data.
  destruct (copy_items_spec (map_to_list (_profiling_data w)) w)
    as (m & w' & Hrun & Hadd & Hdom & Hm).
  { intros k l Hin%elem_of_map_to_list. by eapply Hwf. }
  exists m, w'. split; [done|]. split; [done|]. split.
  - apply set_eq. intros k. rewrite !elem_of_dom, Hdom.
    rewrite list_elem_of_fmap. split.
    + intros [[k' l] [-> Hin%elem_of_map_to_list]]. eauto.
    + intros [l Hl]. exists (k, l). split; [done|]. by apply elem_of_map_to_list.
  - intros k a Hka. destruct (Hm _ _ Hka) as (Hnone & l & xs & Hin & Hl & Ha).
    split; [done|]. apply elem_of_map_to_list in Hin.
    by rewrite (samples_bound _ _ _ _ Hin Hl).
Qed.

Lemma array_is_detached a xs w w1 :
  wf_registry w → arrays_added w w1 →
  heap w !! a = None → heap w1 !! a = Some (CArray xs) →
  detached a xs w w1.
Proof.
  intros Hwf Hadd Hnone Ha.
  assert (wf_registry w1) as Hwf1 by by eapply arrays_added_wf.
  split; [done|]. split; [done|]. split.
  - intros ys. unfold array_mutate. rewrite Ha. eexists. split; [reflexivity|].
    split; [simpl; apply (proj1 Hadd)|]. intros k.
    rewrite <- (arrays_added_samples w w1 k Hadd).
    unfold samples. simpl.
    destruct (_profiling_data w1 !! k) as [l|] eqn:Hk; [|done].
    rewrite lookup_insert_ne; [done|]. intros <-.
    destruct Hwf1 as [Hl _]. destruct (Hl _ _ Hk) as [zs Hzs]. congruence.
  - intros k x.
    destruct (record_sample_spec k x w1 Hwf1) as (w2 & Hrun & _ & _ & _ & _ & Hkeep).
    exists w2. split; [done|]. apply Hkeep; [done|]. by intros [].
Qed.

(** C10. The sequences returned by [get_profiling_data] and
    [get_all_profiling_data] are new arrays holding a copy of the stored
    samples: for every key, mutating a returned array changes no stored
    sample sequence, and recording a sample after the read does not change
    the returned array. *)
Theorem returned_sequences_are_copies (key : string) (w : World) :
  wf_registry w →
  (∃ a w1, get_profiling_data key w = (Ok a, w1) ∧
           detached a (samples key w) w w1) ∧
  (∃ m w1, get_all_profiling_data w = (Ok m, w1) ∧
           dom m = dom (_profiling_data w) ∧
           ∀ k a, m !! k = Some a → detached a (samples k w) w w1).
Proof.
  intros Hwf. split.
  - rewrite (get_profiling_data_spec _ _ Hwf). eexists _, _. split; [reflexivity|].
    apply array_is_detached; [done|apply arrays_added_alloc| |].
    + apply fresh_not_allocated.
    + simpl. apply lookup_insert_eq.
  - destruct (get_all_profiling_data_spec w Hwf) as (m & w1 & Hrun & Hadd & Hdom & Hm).
    exists m, w1. split; [done|]. split; [done|].
    intros k a Hka. destruct (Hm _ _ Hka) as [Hnone Ha].
    by apply array_is_detached.
Qed.

(** ** Calls *)

Section Calls.
Context (ct : ClassTable).

Lemma instances_updated_refl w : instances_updated w w.
Proof. split; auto. Qed.

Lemma instances_updated_samples w w' key :
  instances_updated w w' → samples key w' = samples key w.
Proof.
  intros [Hp H]. unfold samples. rewrite Hp.
  destruct (_profiling_data w !! key) as [l|]; [|done].
  destruct (H l) as [->|(cls & d & d' & -> & ->)]; done.
Qed.

Lemma instances_updated_wf w w' :
  instances_updated w w' → wf_registry w → wf_registry w'.
Proof.
  intros [Hp H] [Hl Hinj]. split; rewrite Hp; [|done].
  intros k l Hk. destruct (Hl _ _ Hk) as [xs Hxs]. exists xs.
  destruct (H l) as [E|(cls & d & d' & E & _)]; congruence.
Qed.

Lemma call_method_frame self name args w :
  instances_updated w (call_method ct self name args w).2.
Proof.
  unfold call_method.
  destruct (heap w !! self) as [[cls d| | |]|] eqn:Hs; try apply instances_updated_refl.
  destruct (ct cls name) as [body|]; [|apply instances_updated_refl].
  split; [done|]. simpl. intros l.
  destruct (decide (self = l)) as [<-|Hne].
  - right. rewrite lookup_insert_eq. eauto.
  - left. by rewrite lookup_insert_ne.
Qed.

(** [timed_method], with its sequencing written out. *)
Lemma timed_method_unfold getattr attr self name args w :
  timed_method getattr attr self name args w =
    match getattr (VRef self) "_class_name" w with
    | Raise e => (Raise e, w)
    | Ok class_name =>
        match format class_name with
        | Raise e => (Raise e, w)
        | Ok prefix =>
            match attr args w with
            | (Raise e, w1) => (Raise e, w1)
            | (Ok result, w1) =>
                match record_sample (prefix +:+ "." +:+ name) (clock w1 - clock w) w1 with
                | (Ok _, w2) => (Ok result, w2)
                | (Raise e, w2) => (Raise e, w2)
                end
            end
        end
    end.
Proof.
  unfold timed_method, bind, observe, perf_counter, ret.
  destruct (getattr _ _ w) as [cn|e]; [|done].
  destruct (format cn) as [s|e]; [|done].
  destruct (attr args w) as [[r|e] w1]; [|done].
  by destruct (record_sample _ _ w1) as [[[]|e] w2].
Qed.

(** A call keeps the registry well formed. *)
Lemma call_wf fuel f args w :
  wf_registry w → wf_registry (call ct fuel f args w).2.
Proof.
  revert args w. induction f as [| | |l|self name|self name attr IH|]; intros args w Hwf;
    simpl; try done.
  - destruct (heap w !! l) as [[cls d| | |]|]; try done.
    destruct (ct cls "__call__"); [|done].
    eapply instances_updated_wf; [apply call_method_frame|done].
  - eapply instances_updated_wf; [apply call_method_frame|done].
  - rewrite timed_method_unfold.
    destruct (py_getattr _ _ _ _ w) as [cn|e]; [|done].
    destruct (format cn) as [s|e]; [|done].
    specialize (IH args w Hwf).
    destruct (call ct fuel attr args w) as [[r|e] w1]; [|done].
    destruct (record_sample_spec (s +:+ "." +:+ name) (clock w1 - clock w) w1 IH)
      as (w2 & -> & Hwf2 & _).
    done.
Qed.

(** A call that raises has recorded nothing. *)
Lemma call_raise_frame fuel f args w e w' :
  wf_registry w → call ct fuel f args w = (Raise e, w') → instances_updated w w'.
Proof.
  revert args w e w'.
  induction f as [| | |l|self name|self name attr IH|]; intros args w e w' Hwf; simpl;
    try (intros [= _ <-]; apply instances_updated_refl).
  - destruct (heap w !! l) as [[cls d| | |]|];
      try (intros [= _ <-]; apply instances_updated_refl).
    destruct (ct cls "__call__");
      [|intros [= _ <-]; apply instances_updated_refl].
    intros Hrun. pose proof (call_method_frame l "__call__" args w) as Hf.
    by rewrite Hrun in Hf.
  - intros Hrun. pose proof (call_method_frame self name args w) as Hf.
    by rewrite Hrun in Hf.
  - rewrite timed_method_unfold.
    destruct (py_getattr _ _ _ _ w) as [cn|e0];
      [|intros [= _ <-]; apply instances_updated_refl].
    destruct (format cn) as [s|e0];
      [|intros [= _ <-]; apply instances_updated_refl].
    pose proof (call_wf fuel attr args w Hwf) as Hwf1.
    destruct (call ct fuel attr args w) as [[r|e1] w1] eqn:Hattr.
    + destruct (record_sample_spec (s +:+ "." +:+ name) (clock w1 - clock w) w1 Hwf1)
        as (w2 & -> & _). done.
    + intros [= <- <-]. by eapply IH.
Qed.

(** Under a monotonic clock no call sets the clock back. *)
Lemma call_method_clock self name args w :
  monotonic_clock ct → clock w <= clock (call_method ct self name args w).2.
Proof.
  intros Hmono. unfold call_method.
  destruct (heap w !! self) as [[cls d| | |]|]; simpl; try lra.
  destruct (ct cls name) as [body|] eqn:Hct; simpl; [|lra].
  pose proof (Hmono _ _ _ args d Hct). lra.
Qed.

Lemma call_clock fuel f args w :
  monotonic_clock ct → wf_registry w → clock w <= clock (call ct fuel f args w).2.
Proof.
  intros Hmono. revert args w.
  induction f as [| | |l|self name|self name attr IH|]; intros args w Hwf; simpl;
    try lra.
  - destruct (heap w !! l) as [[cls d| | |]|]; simpl; try lra.
    destruct (ct cls "__call__"); simpl; [|lra]. by apply call_method_clock.
  - by apply call_method_clock.
  - rewrite timed_method_unfold.
    destruct (py_getattr _ _ _ _ w) as [cn|e]; simpl; [|lra].
    destruct (format cn) as [s|e]; simpl; [|lra].
    specialize (IH args w Hwf).
    pose proof (call_wf fuel attr args w Hwf) as Hwf1.
    destruct (call ct fuel attr args w) as [[r|e] w1]; [|done].
    destruct (record_sample_spec (s +:+ "." +:+ name) (clock w1 - clock w) w1 Hwf1)
      as (w2 & -> & _ & Hclock & _).
    simpl in *. lra.
Qed.

(** A successful call of the substitute, whatever callable it wraps: the
    result is the one of the wrapped call, and exactly one sample, the time
    the wrapped call took, is appended to the sequence of the key, after
    whatever the wrapped call has done. *)
Lemma successful_call_records_once fuel p name attr args w w1 r cls :
  wf_registry w →
  py_getattr ct fuel (VRef p) "_class_name" w = Ok (VStr cls) →
  call ct fuel attr args w = (Ok r, w1) →
  ∃ w2, call ct fuel (VTimed p name attr) args w = (Ok r, w2) ∧
        samples (key_of cls name) w2 =
          (samples (key_of cls name) w1 ++ [clock w1 - clock w])%list ∧
        (∀ k, k ≠ key_of cls name → samples k w2 = samples k w1) ∧
        (monotonic_clock ct → 0 <= clock w1 - clock w).
Proof.
  intros Hwf Hcn Hattr.
  pose proof (call_wf fuel attr args w Hwf) as Hwf1.
  pose proof (λ Hmono, call_clock fuel attr args w Hmono Hwf) as Hclock.
  rewrite Hattr in Hwf1, Hclock. simpl in *.
  destruct (record_sample_spec (key_of cls name) (clock w1 - clock w) w1 Hwf1)
    as (w2 & Hrec & _ & _ & Hkey & Hother & _).
  exists w2. split; [|split; [done|split; [done|]]].
  - rewrite timed_method_unfold, Hcn. simpl. rewrite Hattr.
    fold (key_of cls name). by rewrite Hrec.
  - intros Hmono. specialize (Hclock Hmono). lra.
Qed.

(** C2. When the call of the wrapped method raises, the substitute raises
    the same exception and ends in the same state as the wrapped call: it
    has recorded nothing, the registry binds the same keys, and the sample
    sequence of every key, that of the method included, is what it was
    before the call. *)
Theorem failed_call_records_no_sample (fuel : nat) (p : loc) (name : string)
    (attr : Value) (args : Args) (w w1 : World) (e : Exn) (cls : string) :
  wf_registry w →
  py_getattr ct fuel (VRef p) "_class_name" w = Ok (VStr cls) →
  call ct fuel attr args w = (Raise e, w1) →
  call ct fuel (VTimed p name attr) args w = (Raise e, w1) ∧
  _profiling_data w1 = _profiling_data w ∧
  samples (key_of cls name) w1 = samples (key_of cls name) w ∧
  ∀ k, samples k w1 = samples k w.
Proof.
  intros Hwf Hcn Hattr.
  pose proof (call_raise_frame _ _ _ _ _ _ Hwf Hattr) as Hframe.
  split; [|split; [apply Hframe|split]].
  - simpl. rewrite timed_method_unfold, Hcn. simpl. by rewrite Hattr.
  - by apply instances_updated_samples.
  - intros k. by apply instances_updated_samples.
Qed.

End Calls.

(** ** Attribute access through the proxy *)

Section Attributes.
Context (ct : ClassTable).

Lemma forwarded_not_own p dp name :
  (∀ n, is_Some (dp !! n) → String.prefix "_" n = true) →
  forwarded name = true → own_lookup p dp name = None.
Proof.
  intros Hdp [Hpre Hns%bool_decide_eq_true]%andb_prop. unfold own_lookup.
  destruct (dp !! name) eqn:Hd.
  - rewrite (Hdp name) in Hpre by eauto. done.
  - by rewrite bool_decide_eq_false_2.
Qed.

(** Reading a bookkeeping field of the proxy needs no delegation. *)
Lemma proxy_read_own fuel p dp name v w :
  heap w !! p = Some (CProxy dp) → dp !! name = Some v →
  py_getattr ct fuel (VRef p) name w = Ok v.
Proof.
  intros Hp Hd. destruct fuel; simpl; rewrite Hp; unfold own_lookup; by rewrite Hd.
Qed.

Lemma proxy_read_forwarded fuel p dp target name w :
  heap w !! p = Some (CProxy dp) →
  dp !! "_wrapped_obj" = Some target →
  own_lookup p dp name = None →
  py_getattr ct (S fuel) (VRef p) name w =
    match py_getattr ct fuel target name w with
    | Ok attr => Ok (if callable ct w attr then VTimed p name attr else attr)
    | Raise e => Raise e
    end.
Proof.
  intros Hp Hw Hown. simpl. rewrite Hp, Hown. unfold __getattr__.
  rewrite (proxy_read_own fuel p dp "_wrapped_obj" target w Hp Hw).
  destruct (py_getattr ct fuel target name w) as [attr|e]; [|done].
  by destruct (callable ct w attr).
Qed.

(** C1 (amended). For every attribute name that the proxy does not find on
    itself (neither in its instance dictionary nor among the attributes of
    its class), the read resolves the name on the wrapped object: the result
    is the object's attribute, wrapped in the timing closure when callable,
    and when the resolution on the wrapped object raises, the read raises
    that same exception; for an instance that lacks the attribute this is
    the AttributeError naming the instance's class and the attribute. *)
Theorem proxy_read_resolves_on_target (fuel : nat) (p : loc)
    (dp : gmap string Value) (target : Value) (name : string) (w : World) :
  heap w !! p = Some (CProxy dp) →
  dp !! "_wrapped_obj" = Some target →
  own_lookup p dp name = None →
  py_getattr ct (S fuel) (VRef p) name w =
    match py_getattr ct fuel target name w with
    | Ok attr => Ok (if callable ct w attr then VTimed p name attr else attr)
    | Raise e => Raise e
    end ∧
  (∀ e, py_getattr ct fuel target name w = Raise e →
        py_getattr ct (S fuel) (VRef p) name w = Raise e) ∧
  (∀ t cls d, target = VRef t → heap w !! t = Some (CInst cls d) →
              d !! name = None → ct cls name = None →
              py_getattr ct (S fuel) (VRef p) name w =
                Raise (AttributeError cls name)).
Proof.
  intros Hp Hw Hown.
  pose proof (proxy_read_forwarded fuel p dp target name w Hp Hw Hown) as Heq.
  split; [done|]. split.
  - intros e He. by rewrite Heq, He.
  - intros t cls d -> Ht Hd Hct. rewrite Heq.
    assert (py_getattr ct fuel (VRef t) name w = Raise (AttributeError cls name)) as ->; [|done].
    destruct fuel; simpl; rewrite Ht; unfold instance_lookup; rewrite Hd, Hct.
    all: rewrite bool_decide_eq_false_2; [done|].
    all: intros Hin; unfold own_lookup in Hown; destruct (dp !! name); [done|].
    all: rewrite bool_decide_eq_true_2 in Hown; [done|].
    all: unfold class_namespace; apply elem_of_app; by right.
Qed.

Lemma proxy_and_target_differ w p t cls : proxy_of w p t cls → p ≠ t.
Proof. intros (dp & d & Hp & Ht & _) ->. congruence. Qed.

(** C6 (amended). For every attribute name [x] without a leading
    underscore that is not an attribute of the proxy's own class, and every
    value [v], the assignment [proxy.x = v] succeeds and stores [v] as
    attribute [x] of the wrapped instance; afterwards reading [x] on the
    instance gives [v], and reading [proxy.x] gives [v] itself when [v] is
    not callable and the timing closure around [v] when it is. *)
Theorem forwarded_write_round_trip (fuel : nat) (p t : loc) (cls x : string)
    (v : Value) (w : World) :
  proxy_of w p t cls →
  forwarded x = true →
  ∃ w', py_setattr ct (S fuel) (VRef p) x v w = (Ok tt, w') ∧
        proxy_of w' p t cls ∧
        py_getattr ct fuel (VRef t) x w' = Ok v ∧
        py_getattr ct (S fuel) (VRef p) x w' =
          Ok (if callable ct w' v then VTimed p x v else v).
Proof.
  intros Hproxy Hfw. pose proof (proxy_and_target_differ _ _ _ _ Hproxy) as Hne.
  destruct Hproxy as (dp & d & Hp & Ht & Hw & Hcn & Hdp).
  pose proof Hfw as [Hpre _]%andb_prop. apply negb_true_iff in Hpre.
  set (w' := set_heap (<[t := CInst cls (<[x := v]> d)]> (heap w)) w).
  assert (heap w' !! p = Some (CProxy dp)) as Hp'.
  { unfold w'; simpl. by rewrite lookup_insert_ne. }
  assert (heap w' !! t = Some (CInst cls (<[x := v]> d))) as Ht'.
  { unfold w'; simpl. by rewrite lookup_insert_eq. }
  assert (py_setattr ct (S fuel) (VRef p) x v w = (Ok tt, w')) as Hrun.
  { simpl. rewrite Hp. unfold __setattr__. rewrite Hpre.
    unfold bind, observe.
    rewrite (proxy_read_own fuel p dp "_wrapped_obj" (VRef t) w Hp Hw).
    destruct fuel; simpl; by rewrite Ht. }
  clearbody w'.
  assert (py_getattr ct fuel (VRef t) x w' = Ok v) as Hread.
  { destruct fuel; simpl; rewrite Ht'; unfold instance_lookup;
      by rewrite lookup_insert_eq. }
  exists w'. split; [done|]. split; [|split; [done|]].
  - exists dp, (<[x := v]> d). done.
  - rewrite (proxy_read_forwarded fuel p dp (VRef t) x w' Hp' Hw
               (forwarded_not_own p dp x Hdp Hfw)).
    by rewrite Hread.
Qed.

(** Names with a leading underscore stay on the proxy. *)
Lemma setattr_on_proxy getattr setattr p dp name v w :
  String.prefix "_" name = true →
  name ∉ special_slots →
  heap w !! p = Some (CProxy dp) →
  __setattr__ getattr setattr p name v w =
    (Ok tt, set_heap (<[p := CProxy (<[name := v]> dp)]> (heap w)) w).
Proof.
  intros Hpre Hsp Hp. unfold __setattr__, object_setattr.
  by rewrite Hpre, Hp, bool_decide_eq_false_2.
Qed.

(** The constructor, applied to an instance of a user class. *)
Lemma ProfilingWrapper_spec fuel t cls d w :
  heap w !! t = Some (CInst cls d) →
  ProfilingWrapper ct fuel (VRef t) w =
    (Ok (fresh (dom (heap w))),
     set_heap (<[fresh (dom (heap w)) :=
                   CProxy (<["_class_name" := VStr cls]>
                             (<["_wrapped_obj" := VRef t]> ∅))]> (heap w)) w).
Proof.
  intros Ht. set (p := fresh (dom (heap w))).
  assert (heap w !! p = None) as Hfresh by apply fresh_not_allocated.
  assert (p ≠ t) as Hne by congruence.
  unfold ProfilingWrapper, alloc, __init__, bind, observe. fold p.
  erewrite setattr_on_proxy;
    [|done|apply (bool_decide_unpack _); by vm_compute
     |simpl; apply lookup_insert_eq].
  simpl class_name_of. rewrite lookup_insert_ne by done.
  rewrite lookup_insert_ne by done. rewrite Ht.
  erewrite setattr_on_proxy;
    [|done|apply (bool_decide_unpack _); by vm_compute
     |simpl; apply lookup_insert_eq].
  unfold set_heap. simpl. by rewrite !insert_insert_eq.
Qed.

Lemma ProfilingWrapper_proxy_of fuel t cls d w p w' :
  heap w !! t = Some (CInst cls d) →
  ProfilingWrapper ct fuel (VRef t) w = (Ok p, w') →
  proxy_of w' p t cls ∧ heap w !! p = None ∧
  _profiling_data w' = _profiling_data w ∧ clock w' = clock w ∧
  ∀ l, l ≠ p → heap w' !! l = heap w !! l.
Proof.
  intros Ht. rewrite (ProfilingWrapper_spec fuel t cls d w Ht). intros [= <- <-].
  set (p := fresh (dom (heap w))).
  assert (heap w !! p = None) as Hfresh by apply fresh_not_allocated.
  assert (p ≠ t) as Hne by congruence.
  split; [|split; [done|split; [done|split; [done|]]]].
  - eexists _, d. simpl. rewrite lookup_insert_eq, lookup_insert_ne by done.
    split; [done|]. split; [done|]. split; [done|]. split; [done|].
    intros name [v Hv].
    destruct (decide ("_class_name" = name)) as [<-|Hn1]; [done|].
    rewrite lookup_insert_ne in Hv by done.
    destruct (decide ("_wrapped_obj" = name)) as [<-|Hn2]; [done|].
    by rewrite lookup_insert_ne in Hv.
  - intros l Hl. simpl. by rewrite lookup_insert_ne.
Qed.

End Attributes.

(** ** Calls through the proxy *)

Section Invocations.
Context (ct : ClassTable).








End Invocations.

(** ** The registry invariant *)

Lemma wf_registry_empty h c : wf_registry (mkWorld h ∅ c).
Proof. split; simpl; intros *; by rewrite lookup_empty. Qed.

Lemma clear_profiling_data_wf key w :
  wf_registry w → wf_registry (clear_profiling_data key w).2.
Proof.
  intros Hwf. destruct key as [k|]; [|apply wf_registry_empty].
  destruct (clear_key_frame_aux k w Hwf) as (w' & -> & Hwf'). done.
Qed.

(** Replacing a cell that is not a list by another one that is not a list
    keeps the registry well formed; so does allocating anything. *)
Lemma wf_registry_replace l c c' w :
  heap w !! l = Some c → ¬ is_list_cell c →
  wf_registry w → wf_registry (set_heap (<[l := c']> (heap w)) w).
Proof.
  intros Hl Hc [Hlists Hinj]. split; [|done]. simpl. intros k l' Hk.
  destruct (Hlists _ _ Hk) as [xs Hxs]. exists xs.
  rewrite lookup_insert_ne; [done|]. intros <-. rewrite Hl in Hxs.
  injection Hxs as ->. by apply Hc.
Qed.

Lemma wf_registry_alloc c w : wf_registry w → wf_registry (alloc c w).2.
Proof.
  intros [Hlists Hinj]. split; [|done]. simpl. intros k l Hk.
  destruct (Hlists _ _ Hk) as [xs Hxs]. exists xs.
  rewrite lookup_insert_ne; [done|]. intros <-.
  by rewrite fresh_not_allocated in Hxs.
Qed.

Lemma object_setattr_wf self name value w :
  wf_registry w → wf_registry (object_setattr self name value w).2.
Proof.
  intros Hwf. unfold object_setattr.
  destruct (heap w !! self) as [[| dp | |]|] eqn:Hs; try done.
  case_bool_decide; [done|]. simpl.
  eapply wf_registry_replace; [exact Hs|by intros []|done].
Qed.

Lemma setattr_hook_wf getattr setattr self name value w :
  (∀ v n x w0, wf_registry w0 → wf_registry (setattr v n x w0).2) →
  wf_registry w → wf_registry (__setattr__ getattr setattr self name value w).2.
Proof.
  intros Hset Hwf. unfold __setattr__. destruct (String.prefix "_" name).
  - by apply object_setattr_wf.
  - unfold bind, observe.
    destruct (getattr (VRef self) "_wrapped_obj" w); [by apply Hset|done].
Qed.

Lemma py_setattr_wf ct fuel v name value w :
  wf_registry w → wf_registry (py_setattr ct fuel v name value w).2.
Proof.
  revert v name value w. induction fuel as [|n IH]; intros v name value w Hwf;
    destruct v as [| | |l| | |]; simpl; try done;
    destruct (heap w !! l) as [[cls d|dp| |]|] eqn:Hl; try done;
    try (eapply wf_registry_replace; [exact Hl|by intros []|done]).
  by apply setattr_hook_wf.
Qed.

Lemma ProfilingWrapper_wf ct fuel obj w :
  wf_registry w → wf_registry (ProfilingWrapper ct fuel obj w).2.
Proof.
  intros Hwf. unfold ProfilingWrapper.
  pose proof (wf_registry_alloc (CProxy ∅) w Hwf) as Hwf0.
  destruct (alloc (CProxy ∅) w) as [self w0]. simpl in Hwf0.
  assert (wf_registry (__init__ ct fuel self obj w0).2) as Hinit.
  { unfold __init__, bind, observe.
    pose proof (setattr_hook_wf (py_getattr ct fuel) (py_setattr ct fuel) self
                  "_wrapped_obj" obj w0 (py_setattr_wf ct fuel) Hwf0) as Hwf1.
    destruct (__setattr__ _ _ self "_wrapped_obj" obj w0) as [[[]|e] w1]; [|done].
    destruct (class_name_of w1 obj) as [cn|e]; [|done].
    by apply setattr_hook_wf; [apply py_setattr_wf|]. }
  by destruct (__init__ ct fuel self obj w0) as [[[]|e] w1].
Qed.

Lemma array_mutate_wf a ys w : wf_registry w → wf_registry (array_mutate a ys w).2.
Proof.
  intros Hwf. unfold array_mutate.
  destruct (heap w !! a) as [[| | |xs]|] eqn:Ha; try done.
  eapply wf_registry_replace; [exact Ha|by intros []|done].
Qed.

(** Every step keeps the registry well formed, so every reachable state has
    a well-formed registry. *)
Lemma step_wf ct w w' : step ct w w' → wf_registry w → wf_registry w'.
Proof.
  intros Hstep Hwf. destruct Hstep.
  - by apply wf_registry_alloc.
  - by apply ProfilingWrapper_wf.
  - by apply py_setattr_wf.
  - by apply call_wf.
  - by apply array_mutate_wf.
  - eapply arrays_added_wf; [apply get_profiling_data_frame|done].
  - eapply arrays_added_wf; [apply copy_items_frame|done].
  - by apply clear_profiling_data_wf.
  - eapply arrays_added_wf; [apply get_statistics_frame|done].
Qed.

Lemma reachable_wf ct w : reachable ct w → wf_registry w.
Proof.
  induction 1 as [h c|w w' _ IH Hstep]; [apply wf_registry_empty|].
  by eapply step_wf.
Qed.

(** * The concrete program *)

Module DemoFacts.
Import Demo DemoRuns.


Lemma initial_wf : wf_registry initial.
Proof. apply wf_registry_empty. Qed.

Lemma wrapped_run :
  ProfilingWrapper classes 1 (VRef obj1) initial = (Ok proxy, wrapped).
Proof.
  unfold wrapped. destruct (ProfilingWrapper _ _ _ _) as [r w] eqn:Hrun.
  assert (r = (ProfilingWrapper classes 1 (VRef obj1) initial).1) as ->
    by by rewrite Hrun.
  by vm_compute.
Qed.

Lemma wrapped_proxy_of : proxy_of wrapped proxy obj1 "SampleClass".
Proof.
  eapply (ProfilingWrapper_proxy_of classes 1 obj1 "SampleClass" new_instance initial);
    [by vm_compute|apply wrapped_run].
Qed.

Lemma wrapped_wf : wf_registry wrapped.
Proof. split; intros *; by vm_compute. Qed.

Lemma recorded_wf : wf_registry recorded.
Proof.
  split; unfold recorded; simpl.
  - intros k l [_ <-]%lookup_singleton_Some. rewrite lookup_singleton_eq. eauto.
  - intros k1 k2 l [<- _]%lookup_singleton_Some [<- _]%lookup_singleton_Some. done.
Qed.

Lemma recorded_samples :
  samples "SampleClass.fast_method" recorded = [1 / 1000; 3 / 1000].
Proof. by vm_compute. Qed.
End DemoFacts.

(** * Instances of the theorems on the concrete program *)

Section Instances.
Import Demo DemoRuns DemoFacts.

Local Ltac run :=
  match goal with
  | |- ?c = (?r, ?w) => rewrite (surjective_pairing c); f_equal; by vm_compute
  end.

(** [get_statistics] of a key that was never recorded. *)
Lemma get_statistics_empty_is_zero_record_witness :
  wf_registry initial ∧
  samples "DoesNotExist.method" initial = [] ∧
  ∃ w', get_statistics "DoesNotExist.method" initial =
          (Ok {| Stats.count := 0; Stats.mean := 0; Stats.median := 0;
                 Stats.std := 0; Stats.min := 0; Stats.max := 0;
                 Stats.total := 0 |}, w').
Proof.
  split; [apply initial_wf|]. split; [reflexivity|].
  apply (get_statistics_empty_is_zero_record "DoesNotExist.method" initial);
    [apply initial_wf|reflexivity].
Defined.

(** [clear_profiling_data("SampleClass.fast_method")] on a registry that
    binds the key. *)
Lemma clear_key_empties_only_that_key_witness :
  ∃ w', clear_profiling_data (Some "SampleClass.fast_method") recorded = (Ok tt, w') ∧
        _profiling_data w' = _profiling_data recorded ∧
        dd_contains "SampleClass.fast_method" w' =
          dd_contains "SampleClass.fast_method" recorded ∧
        samples "SampleClass.fast_method" w' = [] ∧
        (∀ k, k ≠ "SampleClass.fast_method" → samples k w' = samples k recorded) ∧
        (_profiling_data recorded !! "SampleClass.fast_method" = None → w' = recorded) ∧
        (∃ a w'', get_profiling_data "SampleClass.fast_method" w' = (Ok a, w'') ∧
                  heap w'' !! a = Some (CArray [])).
Proof.
  apply (clear_key_empties_only_that_key "SampleClass.fast_method" recorded).
  apply recorded_wf.
Defined.

(** The two reads on a registry with one key. *)
Lemma returned_sequences_are_copies_witness :
  (∃ a w1, get_profiling_data "SampleClass.fast_method" recorded = (Ok a, w1) ∧
           detached a (samples "SampleClass.fast_method" recorded) recorded w1) ∧
  (∃ m w1, get_all_profiling_data recorded = (Ok m, w1) ∧
           dom m = dom (_profiling_data recorded) ∧
           ∀ k a, m !! k = Some a → detached a (samples k recorded) recorded w1).
Proof.
  apply (returned_sequences_are_copies "SampleClass.fast_method" recorded).
  apply recorded_wf.
Defined.

(** [proxy.failing_method()] *)
Lemma failed_call_records_no_sample_witness :
  call classes 1 (VTimed proxy "failing_method" (VBound obj1 "failing_method"))
       no_args wrapped = (Raise (Raised "ValueError"), after_failure) ∧
  _profiling_data after_failure = _profiling_data wrapped ∧
  samples (key_of "SampleClass" "failing_method") after_failure =
    samples (key_of "SampleClass" "failing_method") wrapped ∧
  ∀ k, samples k after_failure = samples k wrapped.
Proof.
  apply (failed_call_records_no_sample classes 1 proxy "failing_method"
           (VBound obj1 "failing_method") no_args wrapped after_failure
           (Raised "ValueError") "SampleClass").
  - apply wrapped_wf.
  - by vm_compute.
  - unfold after_failure. run.
Defined.



(** [proxy.nothing]: neither the proxy nor the instance has the
    attribute. *)
Lemma proxy_read_resolves_on_target_witness :
  py_getattr classes 2 (VRef proxy) "nothing" wrapped =
    Raise (AttributeError "SampleClass" "nothing").
Proof.
  refine (proj2 (proj2 (proxy_read_resolves_on_target classes 1 proxy proxy_dict
                          (VRef obj1) "nothing" wrapped _ _ _))
                obj1 "SampleClass" new_instance eq_refl _ _ _);
    by vm_compute.
Defined.

(** [proxy.counter = 7] *)
Lemma forwarded_write_round_trip_witness :
  ∃ w', py_setattr classes 2 (VRef proxy) "counter" (VInt 7) wrapped = (Ok tt, w') ∧
        proxy_of w' proxy obj1 "SampleClass" ∧
        py_getattr classes 1 (VRef obj1) "counter" w' = Ok (VInt 7) ∧
        py_getattr classes 2 (VRef proxy) "counter" w' =
          Ok (if callable classes w' (VInt 7)
              then VTimed proxy "counter" (VInt 7) else VInt 7).
Proof.
  apply (forwarded_write_round_trip classes 1 proxy obj1 "SampleClass" "counter"
           (VInt 7) wrapped).
  - apply wrapped_proxy_of.
  - by vm_compute.
Defined.

(** C1, as first stated, fails.  The instance has neither [_class_name] nor
    [get_statistics], so reading them on it raises AttributeError; read on
    the proxy, both names are found on the proxy itself and the read
    succeeds. *)
Lemma proxy_read_own_names_counterexample :
  py_getattr classes 1 (VRef obj1) "_class_name" wrapped =
    Raise (AttributeError "SampleClass" "_class_name") ∧
  py_getattr classes 2 (VRef proxy) "_class_name" wrapped =
    Ok (VStr "SampleClass") ∧
  py_getattr classes 1 (VRef obj1) "get_statistics" wrapped =
    Raise (AttributeError "SampleClass" "get_statistics") ∧
  py_getattr classes 2 (VRef proxy) "get_statistics" wrapped =
    Ok (VSlot proxy "get_statistics").
Proof. repeat split; by vm_compute. Qed.

(** C6, as first stated, fails.  After [proxy.hook = target.fast_method]
    the instance holds the bound method, but [proxy.hook] is the timing
    closure around it, a different value; after [proxy.get_statistics = 5]
    the instance holds 5, but [proxy.get_statistics] is still the class
    method of the proxy. *)
Lemma forwarded_write_counterexample :
  (py_setattr classes 2 (VRef proxy) "hook" hook wrapped = (Ok tt, hooked) ∧
   py_getattr classes 1 (VRef obj1) "hook" hooked = Ok hook ∧
   py_getattr classes 2 (VRef proxy) "hook" hooked = Ok (VTimed proxy "hook" hook) ∧
   VTimed proxy "hook" hook ≠ hook) ∧
  (py_setattr classes 2 (VRef proxy) "get_statistics" (VInt 5) wrapped
     = (Ok tt, shadowed) ∧
   py_getattr classes 1 (VRef obj1) "get_statistics" shadowed = Ok (VInt 5) ∧
   py_getattr classes 2 (VRef proxy) "get_statistics" shadowed =
     Ok (VSlot proxy "get_statistics") ∧
   VSlot proxy "get_statistics" ≠ VInt 5).
Proof.
  split; (split; [run|]); repeat split; try by vm_compute.
Qed.

End Instances.

(** * Further properties of the registry *)

Lemma clear_key_spec key w :
  wf_registry w →
  ∃ w', clear_profiling_data (Some key) w = (Ok tt, w') ∧
        wf_registry w' ∧
        _profiling_data w' = _profiling_data w ∧
        samples key w' = [] ∧
        (∀ l c, heap w !! l = Some c → ¬ is_list_cell c → heap w' !! l = Some c).
Proof.
  intros Hwf. unfold clear_profiling_data, dd_contains.
  destruct (_profiling_data w !! key) as [l|] eqn:Hk.
  - rewrite bool_decide_eq_true_2 by eauto.
    unfold bind, dd_getitem, list_clear. rewrite Hk.
    pose proof (wf_bound _ _ _ Hwf Hk) as Hl. rewrite Hl.
    eexists. split; [reflexivity|]. split; [|split; [done|split]].
    + destruct Hwf as [Hlists Hinj]. split; [|done]. intros k l' Hk'. simpl.
      destruct (decide (l = l')) as [<-|Hne].
      * rewrite lookup_insert_eq. eauto.
      * rewrite lookup_insert_ne by done. eauto.
    + unfold samples. simpl. by rewrite Hk, lookup_insert_eq.
    + intros l' c Hc Hnl. simpl. rewrite lookup_insert_ne; [done|].
      intros <-. rewrite Hl in Hc. injection Hc as <-. by apply Hnl.
  - rewrite bool_decide_eq_false_2 by (intros [? ?]; done).
    exists w. split; [done|]. split; [done|]. split; [done|].
    split; [by apply samples_unbound|done].
Qed.

Lemma clear_all_empties_registry_aux w :
  wf_registry (clear_profiling_data None w).2 ∧
  ∀ k, samples k (clear_profiling_data None w).2 = [].
Proof.
  split; [apply wf_registry_empty|].
  intros k. apply samples_unbound. simpl. apply lookup_empty.
Qed.

(** X1. [clear_profiling_data()] without a key never fails and unbinds
    every key: afterwards no key is in the registry, every sample sequence
    is empty and [get_all_profiling_data] returns the empty mapping.  The
    heap and the clock are left alone. *)
Theorem clear_all_empties_registry (w : World) :
  ∃ w', clear_profiling_data None w = (Ok tt, w') ∧
        _profiling_data w' = ∅ ∧
        heap w' = heap w ∧
        clock w' = clock w ∧
        wf_registry w' ∧
        (∀ k, dd_contains k w' = false) ∧
        (∀ k, samples k w' = []) ∧
        get_all_profiling_data w' = (Ok ∅, w').
Proof.
  eexists. split; [reflexivity|]. simpl.
  split; [done|]. split; [done|]. split; [done|].
  split; [apply wf_registry_empty|]. split; [|split].
  - intros k. unfold dd_contains. simpl. apply bool_decide_eq_false_2.
    rewrite lookup_empty. by intros [? ?].
  - intros k. apply samples_unbound. simpl. apply lookup_empty.
  - unfold get_all_profiling_data. simpl. by rewrite map_to_list_empty.
Qed.

(** X2. After a clear, of the whole registry or of one key, the next sample
    recorded for that key is the only one of the key: recording starts
    afresh, whatever the key held before. *)
Theorem record_after_clear_starts_afresh (key : string) (x : R) (w : World) :
  wf_registry w →
  Forall (λ which, ∃ w1 w2,
            clear_profiling_data which w = (Ok tt, w1) ∧
            record_sample key x w1 = (Ok tt, w2) ∧
            samples key w2 = [x])
         [None; Some key].
Proof.
  intros Hwf.
  assert (∀ w1, wf_registry w1 → samples key w1 = [] →
            ∃ w2, record_sample key x w1 = (Ok tt, w2) ∧ samples key w2 = [x]) as Hrec.
  { intros w1 Hwf1 Hempty.
    destruct (record_sample_spec key x w1 Hwf1) as (w2 & Hrun & _ & _ & Hs & _).
    exists w2. split; [done|]. by rewrite Hs, Hempty. }
  apply Forall_cons_2; [|apply Forall_cons_2; [|apply Forall_nil_2]].
  - destruct (clear_all_empties_registry_aux w) as (Hwf1 & Hempty).
    destruct (Hrec _ Hwf1 (Hempty key)) as (w2 & Hrun & Hs).
    eexists _, w2. split; [reflexivity|]. done.
  - destruct (clear_key_spec key w Hwf) as (w1 & Hrun1 & Hwf1 & _ & Hempty & _).
    destruct (Hrec _ Hwf1 Hempty) as (w2 & Hrun & Hs).
    exists w1, w2. done.
Qed.

Lemma copy_items_distinct items w :
  (∀ k l, (k, l) ∈ items → ∃ xs, heap w !! l = Some (CList xs)) →
  ∀ m w', copy_items items w = (Ok m, w') →
          ∀ k1 k2 a, m !! k1 = Some a → m !! k2 = Some a → k1 = k2.
Proof.
  revert w. induction items as [|[k0 l0] rest IH]; intros w Hlists m w'.
  - intros [= <- <-] k1 k2 a. by rewrite lookup_empty.
  - destruct (Hlists k0 l0) as [xs0 Hl0]; [left|].
    set (w1 := (alloc (CArray xs0) w).2).
    assert (∀ k l, (k, l) ∈ rest → ∃ xs, heap w1 !! l = Some (CList xs)) as Hlists1.
    { intros k l Hin. destruct (Hlists k l) as [xs Hxs]; [by right|].
      exists xs. eapply lookup_weaken; [exact Hxs|].
      apply arrays_added_subseteq, arrays_added_alloc. }
    destruct (copy_items_spec rest w1 Hlists1) as (m1 & w2 & Hrun & _ & _ & Hm1).
    simpl. unfold bind at 1. unfold np_array. rewrite Hl0. simpl.
    change (set_heap _ w) with w1. unfold bind. rewrite Hrun.
    intros [= <- <-] k1 k2 a.
    assert (∀ k, m1 !! k = Some (fresh (dom (heap w))) → False) as Hnew.
    { intros k Hk. destruct (Hm1 _ _ Hk) as [Hnone _].
      unfold w1 in Hnone. simpl in Hnone. by rewrite lookup_insert_eq in Hnone. }
    destruct (decide (k0 = k1)) as [<-|Hne1], (decide (k0 = k2)) as [<-|Hne2];
      rewrite ?lookup_insert_eq, ?lookup_insert_ne by done; try done.
    + intros [= <-] Hk2. by destruct (Hnew _ Hk2).
    + intros Hk1 [= <-]. by destruct (Hnew _ Hk1).
    + by apply (IH w1 Hlists1 m1 w2 Hrun).
Qed.

(** X3. On a well-formed registry [get_all_profiling_data] succeeds and
    returns a snapshot: one entry per key of the registry, each a new array
    holding the samples of its key, no array shared by two keys; the
    registry itself is left as it was. *)
Theorem get_all_profiling_data_is_a_snapshot (w : World) :
  wf_registry w →
  ∃ m w', get_all_profiling_data w = (Ok m, w') ∧
          dom m = dom (_profiling_data w) ∧
          size m = size (_profiling_data w) ∧
          (∀ k a, m !! k = Some a →
                  heap w !! a = None ∧ heap w' !! a = Some (CArray (samples k w))) ∧
          (∀ k1 k2 a, m !! k1 = Some a → m !! k2 = Some a → k1 = k2) ∧
          _profiling_data w' = _profiling_data w ∧
          (∀ k, samples k w' = samples k w).
Proof.
  intros Hwf.
  destruct (get_all_profiling_data_spec w Hwf) as (m & w' & Hrun & Hadd & Hdom & Hm).
  exists m, w'. split; [done|]. split; [done|]. split.
  { by rewrite <- !size_dom, Hdom. }
  split; [done|]. split.
  - eapply (copy_items_distinct (map_to_list (_profiling_data w)) w); [|exact Hrun].
    intros k l Hin%elem_of_map_to_list. by eapply Hwf.
  - split; [apply Hadd|]. intros k. by apply arrays_added_samples.
Qed.

(** X4. An array that [get_profiling_data] returned keeps its items when
    the registry is cleared afterwards, as a whole or for the key it was
    read from: the clear empties the stored list, not the copy. *)
Theorem returned_array_survives_clear (key : string) (w : World) :
  wf_registry w →
  ∃ a w1, get_profiling_data key w = (Ok a, w1) ∧
          Forall (λ which, ∃ w2,
                    clear_profiling_data which w1 = (Ok tt, w2) ∧
                    samples key w2 = [] ∧
                    heap w2 !! a = Some (CArray (samples key w)))
                 [None; Some key].
Proof.
  intros Hwf. rewrite (get_profiling_data_spec _ _ Hwf).
  set (a := fresh (dom (heap w))). set (w1 := (alloc _ w).2).
  assert (heap w1 !! a = Some (CArray (samples key w))) as Ha.
  { unfold w1, a; simpl. apply lookup_insert_eq. }
  assert (wf_registry w1) as Hwf1.
  { eapply arrays_added_wf; [apply arrays_added_alloc|done]. }
  clearbody w1. exists a, w1. split; [done|].
  apply Forall_cons_2; [|apply Forall_cons_2; [|apply Forall_nil_2]].
  - eexists. split; [reflexivity|]. split; [|done].
    apply samples_unbound. simpl. apply lookup_empty.
  - destruct (clear_key_spec key w1 Hwf1) as (w2 & Hrun & _ & _ & Hempty & Hkeep).
    exists w2. split; [done|]. split; [done|]. apply Hkeep; [done|by intros []].
Qed.

(** * Further properties of the statistics *)

Lemma np_min_spec x xs :
  np_min x xs ∈ x :: xs ∧ Forall (λ y, np_min x xs <= y) (x :: xs).
Proof.
  unfold np_min. revert x. induction xs as [|y ys IH]; intros x; simpl.
  - split; [left|]. apply Forall_cons_2; [lra|apply Forall_nil_2].
  - destruct (IH (Rmin x y)) as [Hin Hall].
    apply Forall_cons_1 in Hall as [Hhd Hall].
    pose proof (Rmin_l x y). pose proof (Rmin_r x y). split.
    + apply elem_of_cons in Hin as [->|Hin]; [|by do 2 right].
      unfold Rmin. destruct (Rle_dec x y); [left|right; left].
    + repeat apply Forall_cons_2; try done; lra.
Qed.

Lemma np_max_spec x xs :
  np_max x xs ∈ x :: xs ∧ Forall (λ y, y <= np_max x xs) (x :: xs).
Proof.
  unfold np_max. revert x. induction xs as [|y ys IH]; intros x; simpl.
  - split; [left|]. apply Forall_cons_2; [lra|apply Forall_nil_2].
  - destruct (IH (Rmax x y)) as [Hin Hall].
    apply Forall_cons_1 in Hall as [Hhd Hall].
    pose proof (Rmax_l x y). pose proof (Rmax_r x y). split.
    + apply elem_of_cons in Hin as [->|Hin]; [|by do 2 right].
      unfold Rmax. destruct (Rle_dec x y); [right; left|left].
    + repeat apply Forall_cons_2; try done; lra.
Qed.



(** X5. For a key with at least one sample, [count] of [get_statistics]
    is the number of samples, [min] and [max] are themselves samples of the
    key, and every sample lies between [min] and [max]. *)
Theorem statistics_min_and_max_bound_the_samples (key : string) (w : World) :
  wf_registry w →
  samples key w ≠ [] →
  ∃ st w', get_statistics key w = (Ok st, w') ∧
           Stats.count st = length (samples key w) ∧
           Stats.min st ∈ samples key w ∧
           Stats.max st ∈ samples key w ∧
           Forall (λ x, Stats.min st <= x <= Stats.max st) (samples key w).
Proof.
  intros Hwf Hne. rewrite (get_statistics_spec _ _ Hwf).
  destruct (samples key w) as [|x rest] eqn:Hs; [done|].
  destruct (np_min_spec x rest) as [Hmin_in Hmin].
  destruct (np_max_spec x rest) as [Hmax_in Hmax].
  eexists _, _. split; [reflexivity|]. cbn [Stats.count Stats.min Stats.max].
  split; [done|]. split; [done|]. split; [done|].
  apply Forall_forall. intros y Hy.
  rewrite Forall_forall in Hmin, Hmax. split; auto.
Qed.

(** * Further properties of the proxy *)

Section MoreProxy.
Context (ct : ClassTable).

(** X7. Assigning through the proxy an attribute whose name starts with an
    underscore keeps the value on the proxy: the wrapped object, every other
    cell, the registry and the clock are untouched, and reading the name on
    the proxy gives the value back as it is, not wrapped even when it is
    callable. *)
Theorem underscore_write_stays_on_proxy (fuel : nat) (p : loc)
    (dp : gmap string Value) (name : string) (v : Value) (w : World) :
  heap w !! p = Some (CProxy dp) →
  String.prefix "_" name = true →
  name ∉ special_slots →
  ∃ w', py_setattr ct (S fuel) (VRef p) name v w = (Ok tt, w') ∧
        heap w' !! p = Some (CProxy (<[name := v]> dp)) ∧
        (∀ l, l ≠ p → heap w' !! l = heap w !! l) ∧
        _profiling_data w' = _profiling_data w ∧
        clock w' = clock w ∧
        ∀ fuel', py_getattr ct fuel' (VRef p) name w' = Ok v.
Proof.
  intros Hp Hpre Hsp. eexists. split.
  { simpl. rewrite Hp. by apply setattr_on_proxy. }
  simpl. rewrite lookup_insert_eq. split; [done|]. split.
  { intros l Hl. by rewrite lookup_insert_ne. }
  split; [done|]. split; [done|]. intros fuel'.
  apply (proxy_read_own ct fuel' p (<[name := v]> dp)).
  - simpl. apply lookup_insert_eq.
  - apply lookup_insert_eq.
Qed.




End MoreProxy.

(** * Keys *)





Section Keys.
Context (ct : ClassTable).


End Keys.

(** * Statistics of recorded calls *)


Section CallStatistics.
Context (ct : ClassTable).


End CallStatistics.

(** * Reachable states *)

(** X12. In every state that a program reaches from an empty registry by
    creating instances, wrapping values, assigning attributes, calling
    values and using the registry interface, the registry is well formed,
    and therefore no registry operation raises: the three reads, both
    clears and the recording of a sample all succeed. *)
Theorem registry_never_fails_when_reachable (ct : ClassTable) (key : string)
    (w : World) :
  reachable ct w →
  wf_registry w ∧
  (∃ a w', get_profiling_data key w = (Ok a, w') ∧
           heap w' !! a = Some (CArray (samples key w))) ∧
  (∃ m w', get_all_profiling_data w = (Ok m, w')) ∧
  (∃ st w', get_statistics key w = (Ok st, w')) ∧
  (∀ which, ∃ w', clear_profiling_data which w = (Ok tt, w')) ∧
  (∀ x, ∃ w', record_sample key x w = (Ok tt, w')).
Proof.
  intros Hreach. pose proof (reachable_wf ct w Hreach) as Hwf.
  split; [done|]. split; [|split; [|split; [|split]]].
  - rewrite (get_profiling_data_spec _ _ Hwf). eexists _, _.
    split; [reflexivity|]. simpl. apply lookup_insert_eq.
  - destruct (get_all_profiling_data_spec w Hwf) as (m & w' & Hrun & _). eauto.
  - rewrite (get_statistics_spec _ _ Hwf). eauto.
  - intros [k|].
    + destruct (clear_key_spec k w Hwf) as (w' & Hrun & _). eauto.
    + eexists. reflexivity.
  - intros x. destruct (record_sample_spec key x w Hwf) as (w' & Hrun & _). eauto.
Qed.

(** * Construction, nesting and renaming *)

Section Construction.
Context (ct : ClassTable).

Lemma class_name_of_frame w w' obj cn :
  class_name_of w obj = Ok cn →
  (∀ l c, heap w !! l = Some c → heap w' !! l = Some c) →
  class_name_of w' obj = Ok cn.
Proof.
  intros Hcn Hkeep. destruct obj as [| | |l| | |]; try done. simpl in *.
  destruct (heap w !! l) as [c|] eqn:Hl; [|done].
  by rewrite (Hkeep _ _ Hl).
Qed.

(** The constructor, applied to any value that has a class name. *)
Lemma ProfilingWrapper_spec_any fuel obj cn w :
  class_name_of w obj = Ok cn →
  ProfilingWrapper ct fuel obj w =
    (Ok (fresh (dom (heap w))),
     set_heap (<[fresh (dom (heap w)) :=
                   CProxy (<["_class_name" := VStr cn]>
                             (<["_wrapped_obj" := obj]> ∅))]> (heap w)) w).
Proof.
  intros Hcn. set (p := fresh (dom (heap w))).
  assert (heap w !! p = None) as Hfresh by apply fresh_not_allocated.
  unfold ProfilingWrapper, alloc, __init__, bind, observe. fold p.
  erewrite setattr_on_proxy;
    [|done|apply (bool_decide_unpack _); by vm_compute
     |simpl; apply lookup_insert_eq].
  match goal with
  | |- context [class_name_of ?w1 obj] =>
      rewrite (class_name_of_frame w w1 obj cn Hcn)
  end.
  - erewrite setattr_on_proxy;
      [|done|apply (bool_decide_unpack _); by vm_compute
       |simpl; apply lookup_insert_eq].
    unfold set_heap. simpl. by rewrite !insert_insert_eq.
  - intros l c Hl. simpl. rewrite !lookup_insert_ne by congruence. done.
Qed.

(** X13. [ProfilingWrapper(obj)] succeeds for every value that has a class
    name.  It allocates one new proxy whose dictionary holds exactly the
    wrapped value and its class name (["ProfilingWrapper"] when the value is
    itself a proxy), and changes nothing else: every existing cell, the
    registry, every sample sequence and the clock stay as they were. *)
Theorem construction_captures_target_and_class_name (fuel : nat) (obj : Value)
    (cn : string) (w : World) :
  class_name_of w obj = Ok cn →
  ∃ p w', ProfilingWrapper ct fuel obj w = (Ok p, w') ∧
          heap w !! p = None ∧
          heap w' !! p = Some (CProxy (<["_class_name" := VStr cn]>
                                         (<["_wrapped_obj" := obj]> ∅))) ∧
          (∀ l, l ≠ p → heap w' !! l = heap w !! l) ∧
          _profiling_data w' = _profiling_data w ∧
          clock w' = clock w ∧
          (∀ k, samples k w' = samples k w) ∧
          (∀ fuel', py_getattr ct fuel' (VRef p) "_wrapped_obj" w' = Ok obj ∧
                    py_getattr ct fuel' (VRef p) "_class_name" w' = Ok (VStr cn)) ∧
          (∀ l d, obj = VRef l → heap w !! l = Some (CProxy d) →
                  cn = "ProfilingWrapper").
Proof.
  intros Hcn. rewrite (ProfilingWrapper_spec_any fuel obj cn w Hcn).
  set (p := fresh (dom (heap w))).
  assert (heap w !! p = None) as Hfresh by apply fresh_not_allocated.
  eexists p, _. split; [reflexivity|]. simpl. split; [done|].
  rewrite lookup_insert_eq. split; [done|]. split.
  { intros l Hl. by rewrite lookup_insert_ne. }
  split; [done|]. split; [done|]. split; [|split].
  - intros k. unfold samples. simpl.
    destruct (_profiling_data w !! k) as [l|]; [|done].
    destruct (decide (p = l)) as [<-|Hne].
    + by rewrite lookup_insert_eq, Hfresh.
    + by rewrite lookup_insert_ne.
  - intros fuel'. split; eapply proxy_read_own;
      try (simpl; apply lookup_insert_eq); done.
  - intros l d -> Hl. simpl in Hcn. rewrite Hl in Hcn. by injection Hcn.
Qed.

(** A successful call of the timing closure, with everything it leaves
    behind. *)
Lemma timed_call_spec fuel p name attr args w w1 r cls :
  wf_registry w →
  py_getattr ct fuel (VRef p) "_class_name" w = Ok (VStr cls) →
  call ct fuel attr args w = (Ok r, w1) →
  ∃ w2, call ct fuel (VTimed p name attr) args w = (Ok r, w2) ∧
        wf_registry w2 ∧
        samples (key_of cls name) w2 =
          (samples (key_of cls name) w1 ++ [clock w1 - clock w])%list ∧
        (∀ k, k ≠ key_of cls name → samples k w2 = samples k w1) ∧
        (∀ l c, heap w1 !! l = Some c → ¬ is_list_cell c → heap w2 !! l = Some c).
Proof.
  intros Hwf Hcn Hattr.
  pose proof (call_wf ct fuel attr args w Hwf) as Hwf1.
  rewrite Hattr in Hwf1. simpl in Hwf1.
  destruct (record_sample_spec (key_of cls name) (clock w1 - clock w) w1 Hwf1)
    as (w2 & Hrec & Hwf2 & _ & Hkey & Hother & Hkeep).
  exists w2. split; [|done].
  change (call ct fuel (VTimed p name attr) args)
    with (timed_method (py_getattr ct fuel) (call ct fuel attr) p name args).
  rewrite timed_method_unfold, Hcn. simpl. rewrite Hattr.
  fold (key_of cls name). by rewrite Hrec.
Qed.

(** X14. The key is formed from the proxy's [_class_name] field when the
    closure is called, not when it is made: after [proxy._class_name =
    other], a timing closure of the proxy, even one obtained before the
    assignment, records its call under ["<other>.<method>"] and under no
    other key. *)
Theorem key_follows_class_name_field (fuel : nat) (p t : loc)
    (cls other m : string) (body : Body) (args : Args)
    (d : gmap string Value) (r : Value) (w : World) :
  wf_registry w →
  proxy_of w p t cls →
  heap w !! t = Some (CInst cls d) →
  ct cls m = Some body →
  outcome (body args d) = Ok r →
  ∃ w1 w2,
    py_setattr ct (S fuel) (VRef p) "_class_name" (VStr other) w = (Ok tt, w1) ∧
    call ct (S fuel) (VTimed p m (VBound t m)) args w1 = (Ok r, w2) ∧
    samples (key_of other m) w2 =
      (samples (key_of other m) w ++ [elapsed (body args d)])%list ∧
    (∀ k, k ≠ key_of other m → samples k w2 = samples k w).
Proof.
  intros Hwf Hproxy Ht Hct Hok.
  pose proof (proxy_and_target_differ _ _ _ _ Hproxy) as Hne.
  destruct Hproxy as (dp & d0 & Hp & _ & _ & _ & _).
  set (w1 := set_heap (<[p := CProxy (<["_class_name" := VStr other]> dp)]> (heap w)) w).
  assert (py_setattr ct (S fuel) (VRef p) "_class_name" (VStr other) w = (Ok tt, w1))
    as Hset.
  { simpl. rewrite Hp. apply setattr_on_proxy;
      [done|apply (bool_decide_unpack _); by vm_compute|done]. }
  assert (wf_registry w1) as Hwf1.
  { eapply wf_registry_replace; [exact Hp|by intros []|done]. }
  assert (∀ k, samples k w1 = samples k w) as Hsame.
  { intros k. unfold samples, w1. simpl.
    destruct (_profiling_data w !! k) as [l|] eqn:Hk; [|done].
    destruct (decide (p = l)) as [<-|Hn].
    - by rewrite lookup_insert_eq, Hp.
    - by rewrite lookup_insert_ne. }
  assert (heap w1 !! t = Some (CInst cls d)) as Ht1.
  { unfold w1. simpl. by rewrite lookup_insert_ne. }
  assert (py_getattr ct (S fuel) (VRef p) "_class_name" w1 = Ok (VStr other)) as Hcn.
  { eapply proxy_read_own; [unfold w1; simpl; apply lookup_insert_eq|].
    apply lookup_insert_eq. }
  clearbody w1.
  pose proof (call_method_frame ct t m args w1) as Hframe.
  destruct (call_method ct t m args w1) as [r1 wa] eqn:Hcall.
  assert (r1 = Ok r ∧ clock wa - clock w1 = elapsed (body args d)) as [-> Hdur].
  { unfold call_method in Hcall. rewrite Ht1, Hct, Hok in Hcall.
    injection Hcall as <- <-. split; [done|]. simpl. ring. }
  destruct (timed_call_spec (S fuel) p m (VBound t m) args w1 wa r other Hwf1 Hcn Hcall)
    as (w2 & Hrun & _ & Hkey & Hrest & _).
  simpl in Hframe. exists w1, w2. split; [done|]. split; [done|]. split.
  - by rewrite Hkey, Hdur, (instances_updated_samples w1 wa), Hsame.
  - intros k Hk. by rewrite (Hrest k Hk), (instances_updated_samples w1 wa), Hsame.
Qed.


End Construction.

(** * Failing calls *)

Section Failures.
Context (ct : ClassTable).


End Failures.

(** * Instances of the further properties *)

Section MoreInstances.
Import Demo DemoRuns DemoFacts DemoMore.

Lemma wrapped_reachable : reachable classes wrapped.
Proof.
  unfold wrapped. eapply reachable_step; [|apply step_wrap].
  apply reachable_start.
Qed.

Lemma record_after_clear_starts_afresh_witness :
  Forall (λ which, ∃ w1 w2,
            clear_profiling_data which recorded = (Ok tt, w1) ∧
            record_sample "SampleClass.fast_method" (1 / 100) w1 = (Ok tt, w2) ∧
            samples "SampleClass.fast_method" w2 = [1 / 100])
         [None; Some "SampleClass.fast_method"].
Proof.
  apply (record_after_clear_starts_afresh "SampleClass.fast_method" (1 / 100) recorded).
  apply recorded_wf.
Defined.

Lemma get_all_profiling_data_is_a_snapshot_witness :
  ∃ m w', get_all_profiling_data recorded = (Ok m, w') ∧
          size m = size (_profiling_data recorded).
Proof.
  destruct (get_all_profiling_data_is_a_snapshot recorded recorded_wf)
    as (m & w' & Hrun & _ & Hsize & _).
  exists m, w'. split; [exact Hrun|exact Hsize].
Defined.

Lemma returned_array_survives_clear_witness :
  ∃ a w1, get_profiling_data "SampleClass.fast_method" recorded = (Ok a, w1) ∧
          Forall (λ which, ∃ w2,
                    clear_profiling_data which w1 = (Ok tt, w2) ∧
                    samples "SampleClass.fast_method" w2 = [] ∧
                    heap w2 !! a =
                      Some (CArray (samples "SampleClass.fast_method" recorded)))
                 [None; Some "SampleClass.fast_method"].
Proof.
  apply (returned_array_survives_clear "SampleClass.fast_method" recorded).
  apply recorded_wf.
Defined.

Lemma statistics_min_and_max_bound_the_samples_witness :
  ∃ st w', get_statistics "SampleClass.fast_method" recorded = (Ok st, w') ∧
           Stats.count st = 2%nat ∧
           Forall (λ x, Stats.min st <= x <= Stats.max st) [1 / 1000; 3 / 1000].
Proof.
  destruct (statistics_min_and_max_bound_the_samples "SampleClass.fast_method"
              recorded recorded_wf)
    as (st & w' & Hrun & Hcount & _ & _ & Hall).
  { rewrite recorded_samples. discriminate. }
  exists st, w'. rewrite recorded_samples in Hcount, Hall.
  split; [exact Hrun|]. split; [exact Hcount|exact Hall].
Defined.

Lemma underscore_write_stays_on_proxy_witness :
  ∃ w', py_setattr classes 2 (VRef proxy) "_note" hook wrapped = (Ok tt, w') ∧
        heap w' !! obj1 = heap wrapped !! obj1 ∧
        py_getattr classes 2 (VRef proxy) "_note" w' = Ok hook.
Proof.
  destruct (underscore_write_stays_on_proxy classes 1 proxy proxy_dict "_note" hook
              wrapped) as (w' & Hrun & _ & Hkeep & _ & _ & Hread).
  - by vm_compute.
  - reflexivity.
  - apply (bool_decide_unpack _). by vm_compute.
  - exists w'. split; [exact Hrun|]. split; [by apply Hkeep|apply Hread].
Defined.





Lemma registry_never_fails_when_reachable_witness :
  wf_registry wrapped ∧
  ∃ st w', get_statistics "SampleClass.fast_method" wrapped = (Ok st, w').
Proof.
  destruct (registry_never_fails_when_reachable classes "SampleClass.fast_method"
              wrapped wrapped_reachable) as (Hwf & _ & _ & Hstats & _).
  split; [exact Hwf|exact Hstats].
Defined.

Lemma construction_captures_target_and_class_name_witness :
  ∃ p w', ProfilingWrapper classes 1 (VRef obj1) initial = (Ok p, w') ∧
          py_getattr classes 1 (VRef p) "_class_name" w' = Ok (VStr "SampleClass") ∧
          _profiling_data w' = _profiling_data initial.
Proof.
  destruct (construction_captures_target_and_class_name classes 1 (VRef obj1)
              "SampleClass" initial)
    as (p & w' & Hrun & _ & _ & _ & Hpd & _ & _ & Hread & _).
  - by vm_compute.
  - exists p, w'. split; [exact Hrun|]. split; [apply Hread|exact Hpd].
Defined.

Lemma key_follows_class_name_field_witness :
  ∃ w1 w2,
    py_setattr classes 2 (VRef proxy) "_class_name" (VStr "Renamed") wrapped
      = (Ok tt, w1) ∧
    call classes 2 (VTimed proxy "fast_method" (VBound obj1 "fast_method"))
         no_args w1 = (Ok (VStr "fast"), w2) ∧
    samples (key_of "Renamed" "fast_method") w2 =
      (samples (key_of "Renamed" "fast_method") wrapped
         ++ [elapsed (fast_method no_args new_instance)])%list ∧
    (∀ k, k ≠ key_of "Renamed" "fast_method" → samples k w2 = samples k wrapped).
Proof.
  apply (key_follows_class_name_field classes 1 proxy obj1 "SampleClass" "Renamed"
           "fast_method" fast_method no_args new_instance (VStr "fast") wrapped).
  - apply wrapped_wf.
  - apply wrapped_proxy_of.
  - by vm_compute.
  - reflexivity.
  - reflexivity.
Defined.



End MoreInstances.
